(** * Logger: formatting and dual-sink emission around a wrapped callable

    A shallow embedding of [src/main.py] (class [Logger]) and the
    properties of its message formatting, log-file creation and
    instrumentation wrapper.

    Conventions of the model.
    - A Python [str] is represented by its UTF-8 encoding, a [string] of
      bytes; [py_len] counts code points, as Python's [len] does.  Writing
      a [str] to a file opened with [encoding="UTF-8"] therefore stores
      the same bytes.
    - Python values are the type [value]: [None], booleans, integers,
      strings, plain dictionaries and [DotMap]s with string keys, and other
      objects given by their attributes.  Floats, lists and user classes
      overriding [__eq__], [__format__] or [__getattr__] are outside the
      model.
    - Effects (console, file system, clock, exceptions) are threaded
      through the monad [M] over the record [world].
    - The file system is a map from paths to nodes, a path being the list
      of its components from the root.  Links, search permissions and
      the ["."] and [".."] entries are not modelled: the calls follow a
      path as the operating system does when the path is a [plain_path],
      and the properties of the file system are stated for such paths. *)

From Stdlib Require Import ZArith Ascii DecimalString.
From stdpp Require Import gmap strings list.

Set Warnings "-register-all".

(* ===================================================================== *)
(** * Exceptions and fallible results *)
(* ===================================================================== *)

(** The exception classes that the modelled code can meet.  All of them
    derive from [Exception]; the five file-system ones derive from
    [OSError]. *)
Inductive exn :=
| AttributeError
| KeyError
| IndexError
| TypeError
| FileNotFoundError
| FileExistsError
| NotADirectoryError
| IsADirectoryError
| PermissionError.

Definition is_OSError (e : exn) : bool :=
  match e with
  | FileNotFoundError | FileExistsError | NotADirectoryError
  | IsADirectoryError | PermissionError => true
  | _ => false
  end.

Inductive outcome (A : Type) :=
| Ok (a : A)
| Raise (e : exn).
Arguments Ok {A} a.
Arguments Raise {A} e.

Definition obind {A B} (o : outcome A) (k : A → outcome B) : outcome B :=
  match o with
  | Ok a => k a
  | Raise e => Raise e
  end.

Declare Scope outcome_scope.
Delimit Scope outcome_scope with outcome.
Notation "x ←? o ; k" := (obind o (λ x, k))
  (at level 20, o at level 100, k at level 200, right associativity,
   format "x  ←?  o ;  '/' k") : outcome_scope.

(* ===================================================================== *)
(** * Python values *)
(* ===================================================================== *)

Inductive value :=
| VNone
| VBool (b : bool)
| VInt (z : Z)
| VStr (s : string)
| VDict (items : list (string * value))     (* a plain [dict] *)
| VDotMap (items : list (string * value))   (* a [dotmap.DotMap] *)
| VObj (attrs : list (string * value)).     (* any other object *)

(** Dictionaries keep insertion order; a key is looked up by its first
    entry and an assignment replaces that entry or appends a new one. *)
Fixpoint dict_get {A} (k : string) (d : list (string * A)) : option A :=
  match d with
  | [] => None
  | (k', v) :: d' => if decide (k' = k) then Some v else dict_get k d'
  end.

Fixpoint dict_set {A} (k : string) (v : A) (d : list (string * A))
  : list (string * A) :=
  match d with
  | [] => [(k, v)]
  | (k', v') :: d' =>
      if decide (k' = k) then (k, v) :: d' else (k', v') :: dict_set k v d'
  end.

(** [k in d] *)
Definition dict_mem {A} (k : string) (d : list (string * A)) : bool :=
  match dict_get k d with Some _ => true | None => false end.

(** [d[k]] *)
Definition getitem (d : list (string * value)) (k : string) : outcome value :=
  match dict_get k d with
  | Some v => Ok v
  | None => Raise KeyError
  end.

(** [isinstance(v, dict)]: [DotMap] derives from [OrderedDict]. *)
Definition isinstance_dict (v : value) : bool :=
  match v with
  | VDict _ | VDotMap _ => true
  | _ => false
  end.

Definition is_None (v : value) : bool :=
  match v with VNone => true | _ => false end.

(** [v.get(k, default)] for a mapping [v]; the wrapper calls it on
    mappings only. *)
Definition mapping_get (v : value) (k : string) (default : value) : value :=
  match v with
  | VDict items | VDotMap items =>
      match dict_get k items with Some x => x | None => default end
  | _ => default
  end.

(** The constructor [DotMap(v)] of the [dotmap] package: the entries of a
    mapping are copied, every value that is itself a mapping being wrapped
    in a [DotMap] in turn; [DotMap(None)] is the empty map. *)
Fixpoint to_dotmap (v : value) : value :=
  match v with
  | VDict items | VDotMap items =>
      VDotMap (map (λ kv, match kv with (k, x) => (k, to_dotmap x) end) items)
  | _ => v
  end.

Definition DotMap (v : value) : list (string * value) :=
  match to_dotmap v with
  | VDotMap items => items
  | _ => []
  end.

(** Attribute read [v.name], for the names the wrapper reads ([method],
    [url], [path], [body], [status_code]; none of them is a method of a
    built-in type or of [DotMap]).  A [DotMap] answers a missing name with
    a fresh empty [DotMap], which it also stores under that name;
    [getattr] gives the value read, [getattr_store] the receiver after
    the read. *)
Definition getattr (v : value) (name : string) : outcome value :=
  match v with
  | VObj attrs =>
      match dict_get name attrs with
      | Some x => Ok x
      | None => Raise AttributeError
      end
  | VDotMap items =>
      Ok (match dict_get name items with Some x => x | None => VDotMap [] end)
  | _ => Raise AttributeError
  end.

Definition getattr_store (v : value) (name : string) : value :=
  match v with
  | VDotMap items =>
      match dict_get name items with
      | Some _ => v
      | None => VDotMap (items ++ [(name, VDotMap [])])
      end
  | _ => v
  end.

(** [v != n] for an integer literal [n].  A boolean compares as the
    integer 0 or 1; values of the other types are never equal to an
    integer. *)
Definition py_ne_int (v : value) (n : Z) : bool :=
  match v with
  | VInt z => negb (z =? n)%Z
  | VBool b => negb ((if b then 1 else 0) =? n)%Z
  | _ => true
  end.

(* ===================================================================== *)
(** * Strings and format specifications *)
(* ===================================================================== *)

(** The control character ESC (U+001B, written ['\033'] in the source),
    which introduces every ANSI escape sequence. *)
Definition ESC : ascii := "027"%char.

Fixpoint has_char (c : ascii) (s : string) : bool :=
  match s with
  | EmptyString => false
  | String a s' => if Ascii.eqb a c then true else has_char c s'
  end.

Definition is_digit (c : ascii) : bool :=
  let n := nat_of_ascii c in (48 <=? n) && (n <=? 57).

(** The text after [ESC '['] is the rest of a colour/style (SGR) sequence
    when it is a run of digits and semicolons closed by ['m']. *)
Fixpoint sgr_tail (s : string) : bool :=
  match s with
  | EmptyString => false
  | String c s' =>
      if Ascii.eqb c "m" then true
      else if is_digit c || Ascii.eqb c ";" then sgr_tail s'
      else false
  end.

(** [has_sgr s]: [s] contains an ANSI colour/style escape sequence. *)
Fixpoint has_sgr (s : string) : bool :=
  match s with
  | EmptyString => false
  | String c s' =>
      (Ascii.eqb c ESC &&
       match s' with
       | String b s'' => Ascii.eqb b "[" && sgr_tail s''
       | EmptyString => false
       end)
      || has_sgr s'
  end.

(** [ends_with c s]: the last character of [s] is [c]. *)
Fixpoint ends_with (c : ascii) (s : string) : bool :=
  match s with
  | EmptyString => false
  | String a EmptyString => Ascii.eqb a c
  | String _ s' => ends_with c s'
  end.

Definition LF : ascii := "010"%char.

(** [len(s)]: the number of code points, that is of bytes that are not
    UTF-8 continuation bytes. *)
Definition is_continuation (c : ascii) : bool :=
  let n := nat_of_ascii c in (128 <=? n) && (n <? 192).

Fixpoint py_len (s : string) : nat :=
  match s with
  | EmptyString => 0
  | String c s' => (if is_continuation c then 0 else 1) + py_len s'
  end.

Fixpoint spaces (n : nat) : string :=
  match n with
  | O => EmptyString
  | S k => String " " (spaces k)
  end.

(** The format specification [^width] on a string: centred in a field of
    [width] characters, the odd space going to the right. *)
Definition py_center (width : nat) (s : string) : string :=
  let n := py_len s in
  if width <=? n then s
  else
    let left := (width - n) / 2 in
    spaces left +:+ s +:+ spaces (width - n - left).

(** [str(z)] for an integer. *)
Definition str_int (z : Z) : string := NilZero.string_of_int (Z.to_int z).

(** [format(v, "^width")].  [int.__format__] serves booleans too, which
    it prints as 0 or 1; [None], mappings and plain objects reject a
    non-empty format specification. *)
Definition py_format_center (width : nat) (v : value) : outcome string :=
  match v with
  | VStr s => Ok (py_center width s)
  | VInt z => Ok (py_center width (str_int z))
  | VBool b => Ok (py_center width (if b then "1" else "0"))
  | _ => Raise TypeError
  end.

(** [str(v)].  The text of a mapping or of another object depends on
    [repr] of its parts and on the object's class; it is left to the
    parameter [repr_of]. *)
Definition py_str (repr_of : value → string) (v : value) : string :=
  match v with
  | VNone => "None"
  | VBool b => if b then "True" else "False"
  | VInt z => str_int z
  | VStr s => s
  | _ => repr_of v
  end.

(** A text for the values [py_str] leaves open, to run the model with. *)
Definition repr_opaque (v : value) : string := "<object>".

(** Wall-clock time to the minute, and [strftime(t, "%Y-%m-%d %H:%M")]:
    the year on four digits, the other fields on two. *)
Record datetime := {
  year : nat; month : nat; day : nat; hour : nat; minute : nat
}.

Definition str_nat (n : nat) : string := NilZero.string_of_uint (Nat.to_uint n).

Definition zero_pad (width : nat) (s : string) : string :=
  String.string_of_list_ascii
    (replicate (width - String.length s) "0"%char) +:+ s.

Definition strftime (t : datetime) : string :=
  zero_pad 4 (str_nat (year t)) +:+ "-" +:+
  zero_pad 2 (str_nat (month t)) +:+ "-" +:+
  zero_pad 2 (str_nat (day t)) +:+ " " +:+
  zero_pad 2 (str_nat (hour t)) +:+ ":" +:+
  zero_pad 2 (str_nat (minute t)).

(* ===================================================================== *)
(** * The world: console, file system and clock *)
(* ===================================================================== *)

(** A node of the file system: a directory or a regular file with its
    bytes.  The flag tells whether the process may write to it (create
    entries in the directory, write to the file). *)
Inductive node :=
| Dir (writable : bool)
| File (writable : bool) (bytes : string).

(** The state the logger acts on.  [console] lists the lines printed so
    far, [fs] maps a path (the list of its components from the root) to
    its node, [cwd] is the working directory of the process (the empty
    string when that directory has been removed), [clock] gives the
    successive readings of [datetime.now()] and [ticks] counts the
    readings taken. *)
Record world := {
  console : list string;
  fs : gmap (list string) node;
  cwd : string;
  clock : nat → datetime;
  ticks : nat
}.

Definition set_console (c : list string) (w : world) : world :=
  {| console := c; fs := fs w; cwd := cwd w; clock := clock w; ticks := ticks w |}.

Definition set_fs (f : gmap (list string) node) (w : world) : world :=
  {| console := console w; fs := f; cwd := cwd w; clock := clock w; ticks := ticks w |}.

Definition set_ticks (n : nat) (w : world) : world :=
  {| console := console w; fs := fs w; cwd := cwd w; clock := clock w; ticks := n |}.

(** Computations with effects on the world that may raise. *)
Definition M (A : Type) : Type := world → outcome A * world.

Definition ret {A} (a : A) : M A := λ w, (Ok a, w).

Definition raise {A} (e : exn) : M A := λ w, (Raise e, w).

Definition bind {A B} (m : M A) (k : A → M B) : M B :=
  λ w, match m w with
       | (Ok a, w') => k a w'
       | (Raise e, w') => (Raise e, w')
       end.

Definition lift {A} (o : outcome A) : M A := λ w, (o, w).

(** [try: m except Exception as e: handler e] *)
Definition try_except {A} (m : M A) (handler : exn → M A) : M A :=
  λ w, match m w with
       | (Ok a, w') => (Ok a, w')
       | (Raise e, w') => handler e w'
       end.

Declare Scope M_scope.
Delimit Scope M_scope with M.
Notation "x <- m ;; k" := (bind m (λ x, k))
  (at level 100, m at next level, right associativity,
   format "x  <-  m ;;  '/' k") : M_scope.
Notation "m ;;; k" := (bind m (λ _, k))
  (at level 100, right associativity) : M_scope.

(** [print(s)] *)
Definition print (s : string) : M unit :=
  λ w, (Ok tt, set_console (console w ++ [s]) w).

(** [datetime.now()] *)
Definition now : M datetime :=
  λ w, (Ok (clock w (ticks w)), set_ticks (S (ticks w)) w).

(** [os.getcwd()], which fails once the working directory has been
    removed. *)
Definition getcwd : M string :=
  λ w, match cwd w with
       | EmptyString => (Raise FileNotFoundError, w)
       | d => (Ok d, w)
       end.

(** [a + b] for a string [a] and a [b] that is a string or [None]. *)
Definition str_add (a : string) (b : option string) : outcome string :=
  match b with
  | Some s => Ok (a +:+ s)
  | None => Raise TypeError
  end.

(** ** Paths *)

Fixpoint drop_while {A} (p : A → bool) (l : list A) : list A :=
  match l with
  | [] => []
  | a :: l' => if p a then drop_while p l' else l
  end.

Definition is_sep (c : ascii) : bool := Ascii.eqb c "/".

(** The components of a path, read from the root: the logger only builds
    absolute paths ([os.getcwd() + exit_path]).  Empty components are
    dropped.  The split is textual: ["."] and [".."] come out as names,
    and a separator at the end leaves no trace; [plain_path] below tells
    the paths for which the components are the directories the operating
    system walks through. *)
Fixpoint components_go (cs cur : list ascii) : list string :=
  match cs with
  | [] =>
      match cur with
      | [] => []
      | _ => [String.string_of_list_ascii (rev cur)]
      end
  | c :: cs' =>
      if is_sep c then
        match cur with
        | [] => components_go cs' []
        | _ => String.string_of_list_ascii (rev cur) :: components_go cs' []
        end
      else components_go cs' (c :: cur)
  end.

Definition components (p : string) : list string :=
  components_go (String.list_ascii_of_string p) [].

(** [plain_path p]: [p] is an absolute path to a file name, spelled so
    that its components are the entries the operating system looks up one
    after the other.  It starts with a separator and does not end with
    one, holds no NUL character, none of its components is ["."] or
    [".."], and it stays within the limits of the file system (255 bytes
    for a name, 4095 for the path). *)
Definition plain_path (p : string) : bool :=
  match p with
  | String c _ => is_sep c
  | EmptyString => false
  end
  && negb (ends_with "/" p)
  && negb (has_char "000" p)
  && (String.length p <? 4096)
  && forallb (λ c, negb (bool_decide (c ∈ ["."; ".."]))
                   && (String.length c <=? 255))
       (components p).

(** [os.path.dirname(p)]: the text up to the last ['/'], without its
    trailing slashes unless it consists of slashes only. *)
Definition dirname (p : string) : string :=
  let head_rev := drop_while (λ c, negb (is_sep c)) (rev (String.list_ascii_of_string p)) in
  match drop_while is_sep head_rev with
  | [] => String.string_of_list_ascii (rev head_rev)
  | stripped => String.string_of_list_ascii (rev stripped)
  end.

(** ** File-system calls *)

(** The root always exists; it is read-only unless [fs] says otherwise. *)
Definition node_at (f : gmap (list string) node) (p : list string) : option node :=
  match f !! p with
  | Some n => Some n
  | None => match p with [] => Some (Dir false) | _ => None end
  end.

Definition is_dir (f : gmap (list string) node) (p : list string) : bool :=
  match node_at f p with
  | Some (Dir _) => true
  | _ => false
  end.

(** [os.path.exists(p)]: there is an entry at the components of [p].
    (For a path that ends in a separator the operating system also wants
    that entry to be a directory; the properties of [get_path] that
    depend on the difference are stated for plain paths.) *)
Definition os_path_exists (p : string) : M bool :=
  λ w, (Ok (match p with
            | EmptyString => false
            | _ => bool_decide (is_Some (node_at (fs w) (components p)))
            end), w).

(** The walk to an entry: every directory on the way has to be there and
    to be a directory.  [walk_error f done todo] follows the components
    [todo] from the directory [done] and tells what stops the walk, if
    anything; the last component is the entry itself, which may be
    missing. *)
Fixpoint walk_error (f : gmap (list string) node) (done todo : list string)
  : option exn :=
  match todo with
  | [] => None
  | c :: todo' =>
      match node_at f done with
      | None => Some FileNotFoundError
      | Some (File _ _) => Some NotADirectoryError
      | Some (Dir _) => walk_error f (done ++ [c]) todo'
      end
  end.

(** The directory of the entry [p] may be written to. *)
Definition parent_writable (f : gmap (list string) node) (p : list string) : bool :=
  match node_at f (removelast p) with
  | Some (Dir true) => true
  | _ => false
  end.

(** What stands in the way of creating the entry [p], if anything: the
    walk to it fails, or its directory may not be written to. *)
Definition create_error (f : gmap (list string) node) (p : list string) : option exn :=
  match walk_error f [] p with
  | Some e => Some e
  | None => if parent_writable f p then None else Some PermissionError
  end.

(** [os.mkdir(p)]; the new directory can be written to. *)
Definition mkdir (p : list string) (f : gmap (list string) node)
  : outcome unit * gmap (list string) node :=
  match node_at f p with
  | Some _ => (Raise FileExistsError, f)
  | None =>
      match create_error f p with
      | Some e => (Raise e, f)
      | None => (Ok tt, <[p := Dir true]> f)
      end
  end.

(** [os.makedirs(p, exist_ok=True)], on the reversed list of components:
    the missing ancestors are created first, a [FileExistsError] from
    that recursive call is dropped, and an error of the final [mkdir] is
    dropped when the path is a directory after all (as it is for the
    root). *)
Fixpoint makedirs_rev (rp : list string) (f : gmap (list string) node)
  : outcome unit * gmap (list string) node :=
  match rp with
  | [] => (Ok tt, f)
  | _ :: rhead =>
      let '(r, f1) :=
        match node_at f (rev rhead) with
        | Some _ => (Ok tt, f)
        | None =>
            match makedirs_rev rhead f with
            | (Raise FileExistsError, f') => (Ok tt, f')
            | other => other
            end
        end in
      match r with
      | Raise e => (Raise e, f1)
      | Ok _ =>
          match mkdir (rev rp) f1 with
          | (Raise e, f2) =>
              if is_OSError e && is_dir f2 (rev rp) then (Ok tt, f2)
              else (Raise e, f2)
          | done => done
          end
      end
  end.

Definition makedirs (p : string) : M unit :=
  λ w, match makedirs_rev (rev (components p)) (fs w) with
       | (r, f) => (r, set_fs f w)
       end.

Inductive open_mode := ModeW | ModeA.

(** [open(p, mode)] for writing (['w'], which empties an existing file) or
    appending (['a']); both create a missing file.  A path that ends in a
    separator asks for a directory, which cannot be opened for writing:
    once the walk to the entry has succeeded, such a path is refused with
    [IsADirectoryError], whether the entry is there or not. *)
Definition open_ (p : string) (mode : open_mode) : M unit :=
  λ w, let c := components p in
       match node_at (fs w) c with
       | Some (Dir _) => (Raise IsADirectoryError, w)
       | Some (File writable bytes) =>
           if ends_with "/" p then (Raise IsADirectoryError, w)
           else if writable then
             (Ok tt, set_fs (<[c := File true (match mode with
                                               | ModeW => EmptyString
                                               | ModeA => bytes
                                               end)]> (fs w)) w)
           else (Raise PermissionError, w)
       | None =>
           match walk_error (fs w) [] c with
           | Some e => (Raise e, w)
           | None =>
               if ends_with "/" p then (Raise IsADirectoryError, w)
               else if parent_writable (fs w) c then
                 (Ok tt, set_fs (<[c := File true EmptyString]> (fs w)) w)
               else (Raise PermissionError, w)
           end
       end.

(** [file.write(text)] on the file opened at [p], followed by the close
    that ends the [with] block. *)
Definition file_write (p : string) (text : string) : M unit :=
  λ w, let c := components p in
       match node_at (fs w) c with
       | Some (File wr bytes) =>
           (Ok tt, set_fs (<[c := File wr (bytes +:+ text)]> (fs w)) w)
       | _ => (Ok tt, w)
       end.

(* ===================================================================== *)
(** * class Logger *)
(* ===================================================================== *)

Definition HEADER : string := String ESC "[95m".
Definition OKBLUE : string := String ESC "[94m".
Definition OKCYAN : string := String ESC "[96m".
Definition OKGREEN : string := String ESC "[92m".
Definition WARNING : string := String ESC "[93m".
Definition WHITE : string := String ESC "[97m".
Definition FAIL : string := String ESC "[91m".
Definition ENDC : string := String ESC "[0m".
Definition BOLD : string := String ESC "[1m".
Definition UNDERLINE : string := String ESC "[4m".

(** The line feed ["\n"]. *)
Definition NL : string := String LF EmptyString.

Record Logger := {
  lvl_logging : string;
  exit_path : string;
  color_lvl : bool;
  write_all : bool
}.

(** A callable: its [__name__] and what a call does. *)
Record pyfunc := {
  __name__ : string;
  call : list value → list (string * value) → M value
}.

Section Methods.

(** The text [str()] gives for mappings and other objects. *)
Variable repr_of : value → string.

Local Open Scope M_scope.

(** [f"{data[key]:^width}"] and [f"{data[key]}"] *)
Definition centered (data : list (string * value)) (key : string) (width : nat)
  : M string :=
  lift (v ←? getitem data key; py_format_center width v)%outcome.

Definition plain (data : list (string * value)) (key : string) : M string :=
  lift (v ←? getitem data key; Ok (py_str repr_of v))%outcome.

(** [Logger.__schame_msg__] (lines 44-98).  The two strings of the
    tuple are built one after the other, each with its own reading of
    the clock. *)
Definition __schame_msg__ (self : Logger) (type_msg : string)
    (data : list (string * value)) : M (option (string * string)) :=
  if negb (bool_decide (type_msg ∈ ["info"; "error"; "warning"; "debug"]))
  then ret None
  else if decide (type_msg = "info") then
    t1 <- now ;;
    method1 <- centered data "method" 8 ;;
    url1 <- centered data "url" 25 ;;
    status1 <- centered data "status_code" 5 ;;
    msg1 <- plain data "msg" ;;
    t2 <- now ;;
    method2 <- centered data "method" 8 ;;
    url2 <- centered data "url" 25 ;;
    status2 <- centered data "status_code" 5 ;;
    msg2 <- plain data "msg" ;;
    ret (Some
      (OKGREEN +:+ "INFO" +:+ ENDC +:+
       ":     " +:+
       strftime t1 +:+
       " ||" +:+
       WHITE +:+ BOLD +:+ method1 +:+ ENDC +:+
       "||" +:+
       WHITE +:+ BOLD +:+ url1 +:+ ENDC +:+
       "||" +:+
       OKGREEN +:+ (" " +:+ status1 +:+ " ||") +:+ (" " +:+ msg1) +:+ ENDC,

       "INFO" +:+ ":     " +:+
       strftime t2 +:+
       " ||" +:+ method2 +:+ "||" +:+
       url2 +:+ ("|| " +:+ status2 +:+ " ||") +:+ (" " +:+ msg2 +:+ NL)))
  else if decide (type_msg = "error") then
    t1 <- now ;;
    method1 <- centered data "method" 8 ;;
    url1 <- centered data "url" 25 ;;
    status1 <- centered data "status_code" 5 ;;
    msg1 <- plain data "msg" ;;
    t2 <- now ;;
    method2 <- centered data "method" 8 ;;
    url2 <- centered data "url" 25 ;;
    status2 <- centered data "status_code" 5 ;;
    msg2 <- plain data "msg" ;;
    ret (Some
      (FAIL +:+ "ERROR" +:+ ENDC +:+
       ":    " +:+
       strftime t1 +:+
       " ||" +:+
       WHITE +:+ BOLD +:+ method1 +:+ ENDC +:+
       "||" +:+
       WHITE +:+ BOLD +:+ url1 +:+ ENDC +:+
       "||" +:+
       FAIL +:+ (" " +:+ status1 +:+ " ||") +:+ (" " +:+ msg1) +:+ ENDC,

       "ERROR:    " +:+
       strftime t2 +:+
       " ||" +:+ method2 +:+ "||" +:+
       url2 +:+ ("|| " +:+ status2 +:+ " ||") +:+ (" " +:+ msg2 +:+ NL)))
  else if decide (type_msg = "warning") then ret None
  else ret None.

(** The text of the header line written to a new log file. *)
Definition created_text : string := "Создан файл логгирования".

(** [Logger.get_path] (lines 100-123) *)
Definition get_path (self : Logger) : M bool :=
  found <- os_path_exists (exit_path self) ;;
  (if negb found then
     try_except
       (makedirs (dirname (exit_path self)) ;;;
        open_ (exit_path self) ModeW ;;;
        t <- now ;;
        file_write (exit_path self)
          ("DEBUG" +:+ ":    " +:+
           strftime t +:+
           " || " +:+
           created_text +:+ NL))
       (λ e, ret tt)
   else ret tt) ;;;
  ret true.

(** [Logger.__init__] (lines 22-42).  The parameter [exit_path] is an
    [Optional[str]]: [None] makes the concatenation of line 37 raise, and
    so does a working directory that is gone; neither is caught.  The
    constructor returns the object whatever [get_path] answers.  The
    level and the two flags are taken as a string and booleans; they are
    stored as given. *)
Definition __init__ (lvl_logging : string) (exit_path : option string)
    (color_lvl write_all : bool) : M Logger :=
  d <- getcwd ;;
  path <- lift (str_add d exit_path) ;;
  let self := {| lvl_logging := lvl_logging;
                 exit_path := path;
                 color_lvl := color_lvl;
                 write_all := write_all |} in
  ok <- get_path self ;;
  if negb ok then ret self else ret self.

(** [Logger.write_file] (lines 125-139).  [asyncio.run] drives the
    coroutine to its end before the wrapper goes on, so the call is
    modelled as a direct one.  This is [asyncio.run] in a thread without
    a running event loop, the setting of the model; inside a running loop
    it refuses to start. *)
Definition write_file (self : Logger) (msg : string) : M unit :=
  try_except
    (open_ (exit_path self) ModeA ;;;
     file_write (exit_path self) msg)
    (λ e, match e with
          | FileNotFoundError => print "File Not Found"
          | _ => raise e
          end).

(** Lines 176-181 of [wrapper]: a mapping or [None] becomes a [DotMap]
    with a [status_code] entry. *)
Definition normalize (result : value) : value :=
  if isinstance_dict result || is_None result then
    let status_code := VInt 200 in
    let status_code :=
      if negb (is_None result) then mapping_get result "status_code" (VStr "-")
      else status_code in
    let result := DotMap result in
    VDotMap (dict_set "status_code" status_code result)
  else result.

(** Lines 186-194 of [wrapper]: method, url and message of the event,
    and the result after the read of its [body].  What the reads may
    store in the caller's request object is not followed. *)
Definition log_context (func : pyfunc) (kwargs : list (string * value))
    (result : value) : outcome (value * value * value * value) :=
  let method := VStr "-" in
  let url := VStr (__name__ func) in
  let msg := VStr "OK" in
  if dict_mem "request" kwargs then
    (request ←? getitem kwargs "request";
     method ←? getattr request "method";
     request_url ←? getattr request "url";
     url ←? getattr request_url "path";
     msg ←? getattr result "body";
     Ok (method, url, msg, getattr_store result "body"))%outcome
  else Ok (method, url, msg, result).

(** Lines 189 and 196-197 of [wrapper]: the kind of the event.  A result
    that is a [DotMap] holds a [status_code] since line 181, so this read
    stores nothing. *)
Definition log_kind (result : value) : outcome string :=
  let type_msg := "info" in
  (status_code ←? getattr result "status_code";
   Ok (if py_ne_int status_code 200 then "error" else type_msg))%outcome.

(** [message[i]] on what [__schame_msg__] returned. *)
Definition subscript {A} (message : option (A * A)) (i : nat) : outcome A :=
  match message, i with
  | Some (a, _), 0 => Ok a
  | Some (_, b), 1 => Ok b
  | Some _, _ => Raise IndexError
  | None, _ => Raise TypeError
  end.

(** Lines 199-210 of [wrapper]: format, print, append, return. *)
Definition emit (self : Logger) (write_console write_to_file : bool)
    (type_msg : string) (method url msg result : value) : M value :=
  status_code <- lift (getattr result "status_code") ;;
  message <- __schame_msg__ self type_msg
               [("method", method);
                ("url", url);
                ("msg", msg);
                ("status_code", status_code)] ;;
  (if write_console then
     line <- lift (subscript message 0) ;; print line
   else ret tt) ;;;
  (if write_to_file then
     line <- lift (subscript message 1) ;; write_file self line
   else ret tt) ;;;
  ret result.

(** [wrapper] (lines 173-210), the function the decorator puts in the
    place of [func]. *)
Definition wrapper (self : Logger) (write_console write_to_file : bool)
    (func : pyfunc) (args : list value) (kwargs : list (string * value))
  : M value :=
  result <- call func args kwargs ;;
  let result := normalize result in
  if negb (write_all self) then ret result
  else
    ctx <- lift (log_context func kwargs result) ;;
    let '(method, url, msg, result) := ctx in
    type_msg <- lift (log_kind result) ;;
    emit self write_console write_to_file type_msg method url msg result.

(** [Logger.write] (lines 141-212): the decorator; [wraps] gives the
    wrapper the name of [func]. *)
Definition write (self : Logger) (write_console write_to_file : bool)
    (func : pyfunc) : pyfunc :=
  {| __name__ := __name__ func;
     call := wrapper self write_console write_to_file func |}.

End Methods.

(* ===================================================================== *)
(** * Sample loggers, callables and worlds *)
(* ===================================================================== *)

(** A clock that advances by one minute at every reading. *)
Definition sample_clock (n : nat) : datetime :=
  {| year := 2024; month := 5; day := 17; hour := 9; minute := 30 + n |}.

(** A world whose working directory [/srv] is writable and holds no log
    directory yet. *)
Definition fresh_world : world :=
  {| console := [];
     fs := {[ ["srv"] := Dir true ]};
     cwd := "/srv";
     clock := sample_clock;
     ticks := 0 |}.

(** A world in which the log file is already there. *)
Definition logged_world : world :=
  {| console := [];
     fs := <[ ["srv"; "log"; "file.log"] := File true "old line" ]>
           (<[ ["srv"; "log"] := Dir true ]> {[ ["srv"] := Dir true ]});
     cwd := "/srv";
     clock := sample_clock;
     ticks := 0 |}.

(** A world in which [/srv/log] is a regular file, so that neither the
    directory nor the log file can be created. *)
Definition blocked_world : world :=
  {| console := [];
     fs := <[ ["srv"; "log"] := File true "" ]> {[ ["srv"] := Dir true ]};
     cwd := "/srv";
     clock := sample_clock;
     ticks := 0 |}.

(** [Logger(color_lvl=False)] in [/srv], and the same with logging off. *)
Definition sample_logger : Logger :=
  {| lvl_logging := "info";
     exit_path := "/srv/log/file.log";
     color_lvl := false;
     write_all := true |}.

Definition silent_logger : Logger :=
  {| lvl_logging := "info";
     exit_path := "/srv/log/file.log";
     color_lvl := false;
     write_all := false |}.

(** A function that returns [v] whatever its arguments. *)
Definition returning (name : string) (v : value) : pyfunc :=
  {| __name__ := name; call := λ _ _, ret v |}.

(** A request of a web framework: [method], [url.path]. *)
Definition sample_request : value :=
  VObj [("method", VStr "GET"); ("url", VObj [("path", VStr "/items")])].

Definition sample_data : list (string * value) :=
  [("method", VStr "-"); ("url", VStr "handler");
   ("msg", VStr "OK"); ("status_code", VInt 200)].

(** The two strings [__schame_msg__] gives for [sample_data] and kind
    "info" in [fresh_world]. *)
Definition sample_console_line : string :=
  OKGREEN +:+ "INFO" +:+ ENDC +:+ ":     2024-05-17 09:30 ||" +:+
  WHITE +:+ BOLD +:+ "   -    " +:+ ENDC +:+ "||" +:+
  WHITE +:+ BOLD +:+ "         handler         " +:+ ENDC +:+ "||" +:+
  OKGREEN +:+ "  200  || OK" +:+ ENDC.

Definition sample_file_line : string :=
  "INFO:     2024-05-17 09:31 ||   -    ||         handler         ||  200  || OK"
  +:+ NL.

(* ===================================================================== *)
(** * Notions used to state further properties *)
(* ===================================================================== *)

(** [with_dirs pre suf f]: the file system [f] with the writable
    directories [pre/c1], [pre/c1/c2], ... added, for the components
    [c1; c2; ...] of [suf]. *)
Fixpoint with_dirs (pre suf : list string) (f : gmap (list string) node)
  : gmap (list string) node :=
  match suf with
  | [] => f
  | c :: suf' => with_dirs (pre ++ [c]) suf' (<[pre ++ [c] := Dir true]> f)
  end.

(** The line [get_path] writes into a new log file at time [t]. *)
Definition header_line (t : datetime) : string :=
  "DEBUG:    " +:+ strftime t +:+ " || " +:+ created_text +:+ NL.

(** The values that accept a format specification [^width]. *)
Definition formattable (v : value) : bool :=
  match v with
  | VStr _ | VInt _ | VBool _ => true
  | _ => false
  end.

(** [renderable data]: the dictionary holds the four keys the formatter
    reads, and its method, url and status code accept [^width]. *)
Definition renderable (data : list (string * value)) : bool :=
  match dict_get "method" data, dict_get "url" data,
        dict_get "status_code" data, dict_get "msg" data with
  | Some vm, Some vu, Some vs, Some _ =>
      formattable vm && formattable vu && formattable vs
  | _, _, _, _ => false
  end.

(** [strip_sgr s]: the text [s] without its colour/style escape
    sequences.  While [skipping], the characters of a sequence are dropped
    up to its closing ['m']. *)
Fixpoint strip_sgr_go (skipping : bool) (s : string) : string :=
  match s with
  | EmptyString => EmptyString
  | String c s' =>
      if skipping then
        strip_sgr_go (negb (Ascii.eqb c "m")) s'
      else if Ascii.eqb c ESC &&
              match s' with
              | String b s'' => Ascii.eqb b "[" && sgr_tail s''
              | EmptyString => false
              end
      then strip_sgr_go true s'
      else String c (strip_sgr_go false s')
  end.

Definition strip_sgr (s : string) : string := strip_sgr_go false s.

(** A world in which the log directory is there and the log file is
    not. *)
Definition dir_world : world :=
  {| console := [];
     fs := <[ ["srv"; "log"] := Dir true ]> {[ ["srv"] := Dir true ]};
     cwd := "/srv";
     clock := sample_clock;
     ticks := 0 |}.

(** A world whose clock stands still, with the log file in place. *)
Definition still_world : world :=
  {| console := [];
     fs := <[ ["srv"; "log"; "file.log"] := File true "old line" ]>
           (<[ ["srv"; "log"] := Dir true ]> {[ ["srv"] := Dir true ]});
     cwd := "/srv";
     clock := λ _, sample_clock 0;
     ticks := 0 |}.

(** A response of a web framework: [status_code], [body]. *)
Definition sample_response : value :=
  VObj [("status_code", VInt 404); ("body", VStr "not found")].

(* ===================================================================== *)
(** * Facts about strings and formatting *)
(* ===================================================================== *)

Section StringFacts.

Lemma has_char_app c a b :
  has_char c (a +:+ b) = has_char c a || has_char c b.
Proof.
  induction a as [|x a IH]; simpl; [reflexivity|].
  destruct (Ascii.eqb x c); [reflexivity | exact IH].
Qed.

(** An escape sequence starts with the character ESC. *)
Lemma has_sgr_has_ESC s : has_sgr s = true → has_char ESC s = true.
Proof.
  induction s as [|x s IH]; simpl; [discriminate|].
  destruct (Ascii.eqb x ESC); [reflexivity|].
  simpl. exact IH.
Qed.

Lemma no_ESC_no_sgr s : has_char ESC s = false → has_sgr s = false.
Proof.
  intros H. destruct (has_sgr s) eqn:E; [|reflexivity].
  apply has_sgr_has_ESC in E. congruence.
Qed.

Lemma ends_with_app_r c a b :
  ends_with c b = true → ends_with c (a +:+ b) = true.
Proof.
  intros Hb. induction a as [|x a IH]; simpl; [exact Hb|].
  destruct (a +:+ b) eqn:E; [|exact IH].
  simpl in IH. discriminate.
Qed.

Lemma spaces_no_ESC n : has_char ESC (spaces n) = false.
Proof. induction n; simpl; [reflexivity | assumption]. Qed.

Lemma py_center_no_ESC width s :
  has_char ESC s = false → has_char ESC (py_center width s) = false.
Proof.
  intros Hs. unfold py_center.
  destruct (width <=? py_len s); [exact Hs|].
  rewrite !has_char_app, !spaces_no_ESC, Hs. reflexivity.
Qed.

Lemma digits_no_ESC d : has_char ESC (NilEmpty.string_of_uint d) = false.
Proof. induction d; simpl; try reflexivity; assumption. Qed.

Lemma uint_no_ESC d : has_char ESC (NilZero.string_of_uint d) = false.
Proof. destruct d; try reflexivity; apply (digits_no_ESC (_ d)). Qed.

Lemma str_int_no_ESC z : has_char ESC (str_int z) = false.
Proof.
  unfold str_int, NilZero.string_of_int.
  destruct (Z.to_int z); [apply uint_no_ESC|].
  simpl. apply uint_no_ESC.
Qed.

Lemma str_nat_no_ESC n : has_char ESC (str_nat n) = false.
Proof. apply uint_no_ESC. Qed.

Lemma zeros_no_ESC n :
  has_char ESC (String.string_of_list_ascii (replicate n "0"%char)) = false.
Proof. induction n; simpl; [reflexivity | assumption]. Qed.

Lemma zero_pad_no_ESC width s :
  has_char ESC s = false → has_char ESC (zero_pad width s) = false.
Proof.
  intros Hs. unfold zero_pad. rewrite has_char_app, zeros_no_ESC, Hs.
  reflexivity.
Qed.

Lemma strftime_no_ESC t : has_char ESC (strftime t) = false.
Proof.
  unfold strftime.
  rewrite !has_char_app, !zero_pad_no_ESC by apply str_nat_no_ESC.
  reflexivity.
Qed.

(** A centred field carries an ESC only if the text of the value does. *)
Lemma py_format_center_no_ESC repr_of width v s :
  py_format_center width v = Ok s →
  has_char ESC (py_str repr_of v) = false →
  has_char ESC s = false.
Proof.
  destruct v as [|b|z|t|items|items|attrs]; simpl; intros H Hv;
    try discriminate; injection H as <-; apply py_center_no_ESC.
  - destruct b; reflexivity.
  - apply str_int_no_ESC.
  - exact Hv.
Qed.

End StringFacts.

(* ===================================================================== *)
(** * Facts about dictionaries and attribute reads *)
(* ===================================================================== *)

Section DictFacts.

Context {A : Type}.

Lemma dict_get_set_eq (k : string) (v : A) d :
  dict_get k (dict_set k v d) = Some v.
Proof.
  induction d as [|[k' v'] d IH]; simpl.
  - destruct (decide (k = k)); [reflexivity | contradiction].
  - destruct (decide (k' = k)) as [->|Hne]; simpl.
    + destruct (decide (k = k)); [reflexivity | contradiction].
    + destruct (decide (k' = k)); [contradiction | exact IH].
Qed.

Lemma dict_get_app_other (k k' : string) (v : A) d :
  k ≠ k' → dict_get k' (d ++ [(k, v)]) = dict_get k' d.
Proof.
  intros Hne. induction d as [|[k0 v0] d IH]; simpl.
  - destruct (decide (k = k')); [contradiction | reflexivity].
  - destruct (decide (k0 = k')); [reflexivity | exact IH].
Qed.

Lemma dict_mem_false (k : string) (d : list (string * A)) :
  dict_get k d = None → dict_mem k d = false.
Proof. unfold dict_mem. intros ->. reflexivity. Qed.

End DictFacts.

(** Reading [body] from a result does not change its [status_code]. *)
Lemma getattr_store_body_status v :
  getattr (getattr_store v "body") "status_code" = getattr v "status_code".
Proof.
  destruct v as [|b|z|t|items|items|attrs]; simpl; try reflexivity.
  destruct (dict_get "body" items) eqn:E; simpl; [reflexivity|].
  rewrite dict_get_app_other; [reflexivity | discriminate].
Qed.

(** After lines 176-181 a mapping or [None] is a [DotMap] with a
    [status_code] entry. *)
Lemma normalize_mapping r :
  isinstance_dict r || is_None r = true →
  normalize r =
    VDotMap (dict_set "status_code"
               (if is_None r then VInt 200
                else mapping_get r "status_code" (VStr "-"))
               (DotMap r)).
Proof.
  intros H. unfold normalize. rewrite H. destruct (is_None r); reflexivity.
Qed.

Lemma normalize_other r :
  isinstance_dict r || is_None r = false → normalize r = r.
Proof. intros H. unfold normalize. rewrite H. reflexivity. Qed.

(* ===================================================================== *)
(** * Facts about the formatter *)
(* ===================================================================== *)

Section FormatFacts.

Variable repr_of : value → string.

(** The two strings [__schame_msg__] builds, as functions of the level
    texts, the time stamp and the four rendered fields. *)
Local Abbreviation console_line color label colon t m u s g :=
  (color +:+ label +:+ ENDC +:+ colon +:+ strftime t +:+ " ||" +:+
   WHITE +:+ BOLD +:+ m +:+ ENDC +:+ "||" +:+
   WHITE +:+ BOLD +:+ u +:+ ENDC +:+ "||" +:+
   color +:+ (" " +:+ s +:+ " ||") +:+ (" " +:+ g) +:+ ENDC) (only parsing).

Local Abbreviation file_line label t m u s g :=
  (label +:+ strftime t +:+ " ||" +:+ m +:+ "||" +:+
   u +:+ ("|| " +:+ s +:+ " ||") +:+ (" " +:+ g +:+ NL)) (only parsing).

(** A formatted pair comes from four fields that are present and can be
    rendered; the clock is read twice. *)
Lemma schame_msg_inv self kind data w c f w' :
  __schame_msg__ repr_of self kind data w = (Ok (Some (c, f)), w') →
  ∃ vm vu vs vg m u s,
    getitem data "method" = Ok vm ∧ py_format_center 8 vm = Ok m ∧
    getitem data "url" = Ok vu ∧ py_format_center 25 vu = Ok u ∧
    getitem data "status_code" = Ok vs ∧ py_format_center 5 vs = Ok s ∧
    getitem data "msg" = Ok vg ∧
    w' = set_ticks (S (S (ticks w))) w ∧
    ((kind = "info" ∧
      c = console_line OKGREEN "INFO" ":     " (clock w (ticks w))
            m u s (py_str repr_of vg) ∧
      f = file_line "INFO:     " (clock w (S (ticks w)))
            m u s (py_str repr_of vg))
     ∨
     (kind = "error" ∧
      c = console_line FAIL "ERROR" ":    " (clock w (ticks w))
            m u s (py_str repr_of vg) ∧
      f = file_line "ERROR:    " (clock w (S (ticks w)))
            m u s (py_str repr_of vg))).
Proof.
  intros H. unfold __schame_msg__ in H.
  destruct (negb _); [discriminate|].
  destruct (decide (kind = "info")) as [->|Hi];
    [|destruct (decide (kind = "error")) as [->|He];
      [|destruct (decide (kind = "warning")); discriminate]].
  all: cbv beta iota zeta delta [bind now centered plain lift obind ret] in H.
  all: destruct (getitem data "method") as [vm|]; [|discriminate].
  all: destruct (py_format_center 8 vm) as [m|] eqn:Em; [|discriminate].
  all: destruct (getitem data "url") as [vu|]; [|discriminate].
  all: destruct (py_format_center 25 vu) as [u|] eqn:Eu; [|discriminate].
  all: destruct (getitem data "status_code") as [vs|]; [|discriminate].
  all: destruct (py_format_center 5 vs) as [s|] eqn:Es; [|discriminate].
  all: destruct (getitem data "msg") as [vg|]; [|discriminate].
  all: injection H as <- <- <-.
  all: exists vm, vu, vs, vg, m, u, s.
  all: repeat (split; [first [reflexivity | assumption]|]).
  - left. repeat split; reflexivity.
  - right. repeat split; reflexivity.
Qed.

(** Conversely, with the four fields present and renderable the
    formatter returns the pair, for both kinds. *)
Lemma schame_msg_run self data w vm vu vs vg m u s :
  getitem data "method" = Ok vm → py_format_center 8 vm = Ok m →
  getitem data "url" = Ok vu → py_format_center 25 vu = Ok u →
  getitem data "status_code" = Ok vs → py_format_center 5 vs = Ok s →
  getitem data "msg" = Ok vg →
  __schame_msg__ repr_of self "info" data w =
    (Ok (Some (console_line OKGREEN "INFO" ":     " (clock w (ticks w))
                 m u s (py_str repr_of vg),
               file_line "INFO:     " (clock w (S (ticks w)))
                 m u s (py_str repr_of vg))),
     set_ticks (S (S (ticks w))) w)
  ∧
  __schame_msg__ repr_of self "error" data w =
    (Ok (Some (console_line FAIL "ERROR" ":    " (clock w (ticks w))
                 m u s (py_str repr_of vg),
               file_line "ERROR:    " (clock w (S (ticks w)))
                 m u s (py_str repr_of vg))),
     set_ticks (S (S (ticks w))) w).
Proof.
  intros Hm Hm' Hu Hu' Hs Hs' Hg.
  split; unfold __schame_msg__; simpl negb; cbv iota.
  all: cbv beta iota zeta delta [bind now centered plain lift obind ret].
  all: rewrite Hm, Hm', Hu, Hu', Hs, Hs', Hg; reflexivity.
Qed.

End FormatFacts.

(* ===================================================================== *)
(** * Properties of the formatter *)
(* ===================================================================== *)

Section FormatterClaims.

Variable repr_of : value → string.

(** C7.  For every kind other than "info" and "error" (the accepted kinds
    "warning" and "debug" among them, and every kind outside the accepted
    list) [__schame_msg__] returns [None]: it produces no formatted
    output, reads neither the data nor the clock, and raises no error. *)
Theorem C7_other_kinds_format_nothing self kind data w :
  kind ≠ "info" → kind ≠ "error" →
  __schame_msg__ repr_of self kind data w = (Ok None, w).
Proof.
  intros Hi He. unfold __schame_msg__.
  destruct (negb _); [reflexivity|].
  destruct (decide (kind = "info")); [contradiction|].
  destruct (decide (kind = "error")); [contradiction|].
  destruct (decide (kind = "warning")); reflexivity.
Qed.

(** C3.  Whenever [__schame_msg__] formats a message, its console text
    contains ANSI colour escape sequences, whatever the [color_lvl] flag of
    the logger: the flag is never read.  With [color_lvl = False] the
    console text is therefore still coloured, contrary to the flag's
    documented purpose. *)
Theorem C3_console_colored_whatever_flag self kind data w c f w' :
  __schame_msg__ repr_of self kind data w = (Ok (Some (c, f)), w') →
  has_sgr c = true.
Proof.
  intros H. apply schame_msg_inv in H.
  destruct H as (vm & vu & vs & vg & m & u & s & _ & _ & _ & _ & _ & _ & _ & _ & H).
  destruct H as [(_ & -> & _)|(_ & -> & _)]; reflexivity.
Qed.

(** C4, as the spec states it, fails: the file text repeats the message
    verbatim, so a message that carries an escape sequence puts one into
    the file text. *)
Lemma C4_counterexample :
  ¬ (∀ (repr_of : value → string) self kind data w c f w',
       kind = "info" ∨ kind = "error" →
       __schame_msg__ repr_of self kind data w = (Ok (Some (c, f)), w') →
       has_sgr f = false ∧ ends_with LF f = true).
Proof.
  intros H.
  destruct (H repr_opaque sample_logger "error"
              [("method", VStr "-"); ("url", VStr "handler");
               ("msg", VStr (FAIL +:+ "failed" +:+ ENDC));
               ("status_code", VInt 500)]
              fresh_world _ _ _ (or_intror eq_refl) eq_refl) as [Hf _].
  vm_compute in Hf. discriminate Hf.
Qed.

(** C4, amended.  The file text of a formatted message always ends in a
    line feed, and the formatter adds no escape sequence to it: when the
    texts of the method, url, status code and message hold no ESC
    character, neither does the file text. *)
Theorem C4_file_text_plain self kind data w c f w' :
  __schame_msg__ repr_of self kind data w = (Ok (Some (c, f)), w') →
  ends_with LF f = true ∧
  ((∀ key v, key ∈ ["method"; "url"; "status_code"; "msg"] →
             getitem data key = Ok v →
             has_char ESC (py_str repr_of v) = false) →
   has_char ESC f = false ∧ has_sgr f = false).
Proof.
  intros H. apply schame_msg_inv in H.
  destruct H as (vm & vu & vs & vg & m & u & s &
                 Hm & Hm' & Hu & Hu' & Hs & Hs' & Hg & _ & H).
  assert (Hend : ends_with LF f = true).
  { destruct H as [(_ & _ & ->)|(_ & _ & ->)];
      repeat apply ends_with_app_r; reflexivity. }
  split; [exact Hend|].
  intros Hfree.
  assert (Hno : has_char ESC f = false).
  { assert (has_char ESC m = false) as Em.
    { eapply py_format_center_no_ESC; [exact Hm'|].
      apply (Hfree "method"); [repeat constructor | exact Hm]. }
    assert (has_char ESC u = false) as Eu.
    { eapply py_format_center_no_ESC; [exact Hu'|].
      apply (Hfree "url"); [repeat constructor | exact Hu]. }
    assert (has_char ESC s = false) as Es.
    { eapply py_format_center_no_ESC; [exact Hs'|].
      apply (Hfree "status_code"); [repeat constructor | exact Hs]. }
    assert (has_char ESC (py_str repr_of vg) = false) as Eg.
    { apply (Hfree "msg"); [repeat constructor | exact Hg]. }
    destruct H as [(_ & _ & ->)|(_ & _ & ->)];
      rewrite !has_char_app, strftime_no_ESC, Em, Eu, Es, Eg; reflexivity. }
  split; [exact Hno | apply no_ESC_no_sgr, Hno].
Qed.

End FormatterClaims.

(* ===================================================================== *)
(** * Properties of the wrapper *)
(* ===================================================================== *)

Section WrapperFacts.

Variable repr_of : value → string.

(** Without a keyword argument [request] the event has the default
    method, url and message, and the result is left as it is. *)
Lemma log_context_default func kwargs result :
  dict_get "request" kwargs = None →
  log_context func kwargs result =
    Ok (VStr "-", VStr (__name__ func), VStr "OK", result).
Proof.
  intros H. unfold log_context. rewrite (dict_mem_false _ _ H). reflexivity.
Qed.

(** With a keyword argument [request] the event takes the request's
    method and path and the result's body. *)
Lemma log_context_request func kwargs result request m u p b :
  dict_get "request" kwargs = Some request →
  getattr request "method" = Ok m →
  getattr request "url" = Ok u →
  getattr u "path" = Ok p →
  getattr result "body" = Ok b →
  log_context func kwargs result = Ok (m, p, b, getattr_store result "body").
Proof.
  intros Hr Hm Hu Hp Hb. unfold log_context, dict_mem, getitem.
  rewrite Hr. simpl. rewrite Hm. simpl. rewrite Hu. simpl.
  rewrite Hp. simpl. rewrite Hb. reflexivity.
Qed.

(** [getattr] raises nothing but [AttributeError]. *)
Lemma getattr_raises v name e : getattr v name = Raise e → e = AttributeError.
Proof.
  destruct v as [|b|z|t|items|items|attrs]; simpl; intros H;
    try (injection H as <-; reflexivity); try discriminate.
  destruct (dict_get name attrs); [discriminate|].
  injection H as <-; reflexivity.
Qed.

(** Lines 186-194 fail with [AttributeError] only, and a context they
    build holds a result with the [status_code] it had before. *)
Lemma log_context_raises func kwargs result e :
  log_context func kwargs result = Raise e → e = AttributeError.
Proof.
  unfold log_context, dict_mem, getitem.
  destruct (dict_get "request" kwargs) as [request|]; [|discriminate].
  simpl.
  destruct (getattr request "method") eqn:E1; simpl;
    [|intros H; injection H as <-; eapply getattr_raises, E1].
  destruct (getattr request "url") as [u|] eqn:E2; simpl;
    [|intros H; injection H as <-; eapply getattr_raises, E2].
  destruct (getattr u "path") eqn:E3; simpl;
    [|intros H; injection H as <-; eapply getattr_raises, E3].
  destruct (getattr result "body") eqn:E4; simpl;
    [discriminate|intros H; injection H as <-; eapply getattr_raises, E4].
Qed.

Lemma log_context_status func kwargs result m u g result' :
  log_context func kwargs result = Ok (m, u, g, result') →
  getattr result' "status_code" = getattr result "status_code".
Proof.
  unfold log_context.
  destruct (dict_mem "request" kwargs).
  - destruct (getitem kwargs "request") as [request|]; [simpl|discriminate].
    destruct (getattr request "method"); [simpl|discriminate].
    destruct (getattr request "url") as [ru|]; [simpl|discriminate].
    destruct (getattr ru "path"); [simpl|discriminate].
    destruct (getattr result "body"); [simpl|discriminate].
    intros H; injection H as <- <- <- <-.
    apply getattr_store_body_status.
  - intros H; injection H as <- <- <- <-. reflexivity.
Qed.

(** The kind is "info" exactly for the status code [200]. *)
Lemma py_ne_int_200 status :
  py_ne_int status 200 = false ↔ status = VInt 200.
Proof.
  destruct status as [|b|z|t|items|items|attrs]; simpl;
    try (split; [discriminate | discriminate]).
  - destruct b; split; discriminate.
  - rewrite negb_false_iff, Z.eqb_eq. split; congruence.
Qed.

(** The wrapper with logging enabled, after the wrapped call returned. *)
Lemma wrapper_enabled self wc wf func args kwargs w r w1 :
  write_all self = true →
  call func args kwargs w = (Ok r, w1) →
  wrapper repr_of self wc wf func args kwargs w =
    match log_context func kwargs (normalize r) with
    | Ok (m, u, g, res) =>
        match log_kind res with
        | Ok kind => emit repr_of self wc wf kind m u g res w1
        | Raise e => (Raise e, w1)
        end
    | Raise e => (Raise e, w1)
    end.
Proof.
  intros Hon Hcall. unfold wrapper, bind. rewrite Hcall, Hon. simpl.
  unfold lift.
  destruct (log_context func kwargs (normalize r)) as [[[[m u] g] res]|e];
    [|reflexivity].
  destruct (log_kind res); reflexivity.
Qed.

(** The wrapper with logging disabled. *)
Lemma wrapper_disabled self wc wf func args kwargs w :
  write_all self = false →
  wrapper repr_of self wc wf func args kwargs w =
    match call func args kwargs w with
    | (Ok r, w1) => (Ok (normalize r), w1)
    | (Raise e, w1) => (Raise e, w1)
    end.
Proof.
  intros Hoff. unfold wrapper, bind.
  destruct (call func args kwargs w) as [[r|e] w1]; [|reflexivity].
  rewrite Hoff. reflexivity.
Qed.

End WrapperFacts.

Section WrapperClaims.

Variable repr_of : value → string.

(** The default of C1 fails on the code: a mapping without a
    [status_code] key is not given the status code 200. *)
Lemma C1_counterexample :
  ¬ (∀ r, isinstance_dict r || is_None r = true →
          getattr (normalize r) "status_code" =
            Ok (mapping_get r "status_code" (VInt 200))).
Proof.
  intros H.
  specialize (H (VDict [("detail", VStr "not found")]) eq_refl).
  vm_compute in H. discriminate H.
Qed.

(** C1.  What lines 176-181 do with a return value that is a mapping or
    [None]: it is turned into a [DotMap] holding a [status_code], which is
    200 for [None] and the mapping's own [status_code] when it has one.
    For a mapping without that key it is the string "-", where the
    docstring of [write] promises 200 ("status_code = 200 or from the
    returned dictionary"): the default written at line 177 is replaced at
    line 179 by the default of [result.get]. *)
Theorem C1_normalized_status r :
  isinstance_dict r || is_None r = true →
  ∃ items,
    normalize r = VDotMap items ∧
    dict_get "status_code" items =
      Some (if is_None r then VInt 200
            else mapping_get r "status_code" (VStr "-")) ∧
    getattr (normalize r) "status_code" =
      Ok (if is_None r then VInt 200
          else mapping_get r "status_code" (VStr "-")).
Proof.
  intros H. rewrite (normalize_mapping r H).
  eexists. split; [reflexivity|].
  simpl. rewrite dict_get_set_eq. split; reflexivity.
Qed.

(** C2.  With logging enabled, once the wrapped call has returned and the
    context of the event is built, the wrapper formats the event with kind
    "info" when the status code of the normalized result is the integer
    200 and with kind "error" when it is anything else. *)
Theorem C2_kind_by_status self wc wf func args kwargs w r w1 m u g res status :
  write_all self = true →
  call func args kwargs w = (Ok r, w1) →
  log_context func kwargs (normalize r) = Ok (m, u, g, res) →
  getattr (normalize r) "status_code" = Ok status →
  (status = VInt 200 →
   log_kind res = Ok "info" ∧
   wrapper repr_of self wc wf func args kwargs w =
     emit repr_of self wc wf "info" m u g res w1) ∧
  (status ≠ VInt 200 →
   log_kind res = Ok "error" ∧
   wrapper repr_of self wc wf func args kwargs w =
     emit repr_of self wc wf "error" m u g res w1).
Proof.
  intros Hon Hcall Hctx Hst.
  rewrite (wrapper_enabled repr_of self wc wf func args kwargs w r w1 Hon Hcall).
  rewrite Hctx. unfold log_kind.
  rewrite (log_context_status _ _ _ _ _ _ _ Hctx), Hst. simpl.
  destruct (py_ne_int status 200) eqn:E.
  - split; [|split; reflexivity].
    intros ->. discriminate E.
  - apply py_ne_int_200 in E. split; [split; reflexivity|].
    intros Hne. contradiction.
Qed.

(** C5.  With [write_all = False] every call of the wrapper ends in the
    very world the wrapped call left, with the normalized result of that
    call (or with the exception it raised): the wrapper prints nothing,
    appends nothing, and leaves the log file and the clock untouched. *)
Theorem C5_disabled_no_effect self wc wf func args kwargs w res w1 :
  write_all self = false →
  call func args kwargs w = (res, w1) →
  wrapper repr_of self wc wf func args kwargs w =
    (match res with
     | Ok r => Ok (normalize r)
     | Raise e => Raise e
     end, w1).
Proof.
  intros Hoff Hcall.
  rewrite (wrapper_disabled repr_of self wc wf func args kwargs w Hoff).
  rewrite Hcall. destruct res; reflexivity.
Qed.

(** The info line of a call that returned [None] and had no [request]:
    console text and file text, for a time stamp and a function name. *)
Local Abbreviation none_console_line t name :=
  (OKGREEN +:+ "INFO" +:+ ENDC +:+ ":     " +:+ strftime t +:+ " ||" +:+
   WHITE +:+ BOLD +:+ "   -    " +:+ ENDC +:+ "||" +:+
   WHITE +:+ BOLD +:+ py_center 25 name +:+ ENDC +:+ "||" +:+
   OKGREEN +:+ "  200  || OK" +:+ ENDC) (only parsing).

Local Abbreviation none_file_line t name :=
  ("INFO:     " +:+ strftime t +:+ " ||" +:+ "   -    " +:+ "||" +:+
   py_center 25 name +:+ "||  200  || OK" +:+ NL) (only parsing).


(** C9.  The wrapper looks for the request under the keyword [request]
    and nowhere else.  A request passed positionally leaves the event with
    the default method "-", the function's name as url and the message
    "OK"; the same request passed as the keyword [request] gives the
    event its method and path, and the result's body as message. *)
Theorem C9_request_by_keyword_only
    self wc wf func args kwargs request rm ru rp w r w1 :
  write_all self = true →
  request ∈ args →
  getattr request "method" = Ok rm →
  getattr request "url" = Ok ru →
  getattr ru "path" = Ok rp →
  dict_get "request" kwargs = None →
  call func args kwargs w = (Ok r, w1) →
  log_context func kwargs (normalize r) =
    Ok (VStr "-", VStr (__name__ func), VStr "OK", normalize r)
  ∧
  wrapper repr_of self wc wf func args kwargs w =
    match log_kind (normalize r) with
    | Ok kind =>
        emit repr_of self wc wf kind
          (VStr "-") (VStr (__name__ func)) (VStr "OK") (normalize r) w1
    | Raise e => (Raise e, w1)
    end
  ∧
  (∀ kwargs' body,
     dict_get "request" kwargs' = Some request →
     getattr (normalize r) "body" = Ok body →
     log_context func kwargs' (normalize r) =
       Ok (rm, rp, body, getattr_store (normalize r) "body")).
Proof.
  intros Hon _ Hm Hu Hp Hreq Hcall.
  pose proof (log_context_default func kwargs (normalize r) Hreq) as Hctx.
  split; [exact Hctx|]. split.
  - rewrite (wrapper_enabled repr_of self wc wf func args kwargs w r w1 Hon Hcall).
    rewrite Hctx. reflexivity.
  - intros kwargs' body Hkw Hbody.
    exact (log_context_request func kwargs' _ request rm ru rp body
             Hkw Hm Hu Hp Hbody).
Qed.

(** C10.  A return value that is neither a mapping nor [None] is not
    normalized.  With logging disabled the wrapper returns it as it is.
    With logging enabled the wrapper reads its [status_code] attribute: if
    the value has none, the wrapper raises [AttributeError] in the world
    the wrapped call left, having printed and appended nothing; if it has
    one (and no [request] keyword is given), that attribute decides the
    kind of the event. *)
Theorem C10_unnormalized_result self wc wf func args kwargs w r w1 :
  isinstance_dict r || is_None r = false →
  call func args kwargs w = (Ok r, w1) →
  normalize r = r
  ∧
  (write_all self = false →
   wrapper repr_of self wc wf func args kwargs w = (Ok r, w1))
  ∧
  (write_all self = true →
   getattr r "status_code" = Raise AttributeError →
   wrapper repr_of self wc wf func args kwargs w = (Raise AttributeError, w1))
  ∧
  (write_all self = true →
   dict_get "request" kwargs = None →
   ∀ status,
     getattr r "status_code" = Ok status →
     wrapper repr_of self wc wf func args kwargs w =
       emit repr_of self wc wf (if py_ne_int status 200 then "error" else "info")
         (VStr "-") (VStr (__name__ func)) (VStr "OK") r w1).
Proof.
  intros Hr Hcall.
  pose proof (normalize_other r Hr) as Hn.
  split; [exact Hn|]. split; [|split].
  - intros Hoff.
    rewrite (wrapper_disabled repr_of self wc wf func args kwargs w Hoff).
    rewrite Hcall, Hn. reflexivity.
  - intros Hon Hmissing.
    rewrite (wrapper_enabled repr_of self wc wf func args kwargs w r w1 Hon Hcall).
    rewrite Hn.
    destruct (log_context func kwargs r) as [[[[m u] g] res]|e] eqn:Hctx.
    + unfold log_kind.
      rewrite (log_context_status _ _ _ _ _ _ _ Hctx), Hmissing. reflexivity.
    + rewrite (log_context_raises _ _ _ _ Hctx). reflexivity.
  - intros Hon Hreq status Hst.
    rewrite (wrapper_enabled repr_of self wc wf func args kwargs w r w1 Hon Hcall).
    rewrite Hn, (log_context_default func kwargs r Hreq).
    unfold log_kind. rewrite Hst. reflexivity.
Qed.

End WrapperClaims.

(* ===================================================================== *)
(** * Properties of the log-file check *)
(* ===================================================================== *)

(** [os.path.exists] holds of a non-empty path that leads to a node. *)
Lemma os_path_exists_node p w n :
  p ≠ EmptyString →
  fs w !! components p = Some n →
  os_path_exists p w = (Ok true, w).
Proof.
  intros Hp Hn. unfold os_path_exists, node_at. rewrite Hn.
  destruct p; [contradiction|].
  rewrite bool_decide_eq_true_2; [reflexivity | eauto].
Qed.

(** C8.  [get_path] always returns [True] and never raises, whatever
    happens to the creation of the directory and of the file; and when
    the log file already exists it changes nothing, so that the file keeps
    its contents however often [get_path] is called. *)
Theorem C8_get_path_idempotent self w :
  (∃ w', get_path self w = (Ok true, w'))
  ∧
  (∀ writable bytes,
     exit_path self ≠ EmptyString →
     fs w !! components (exit_path self) = Some (File writable bytes) →
     get_path self w = (Ok true, w) ∧
     get_path self (snd (get_path self w)) = (Ok true, w)).
Proof.
  split.
  - unfold get_path, bind at 1 2.
    unfold os_path_exists at 1.
    destruct (negb _).
    + unfold try_except.
      match goal with |- context [match ?m w with _ => _ end] =>
        destruct (m w) as [[[]|e] w'] end; simpl; eauto.
    + simpl. eauto.
  - intros writable bytes Hp Hfile.
    assert (Hidle : get_path self w = (Ok true, w)).
    { unfold get_path, bind at 1 2.
      rewrite (os_path_exists_node _ _ _ Hp Hfile). reflexivity. }
    rewrite Hidle. split; [reflexivity | exact Hidle].
Qed.

(* ===================================================================== *)
(** * The properties at work on the sample worlds *)
(* ===================================================================== *)

(** The formatter on [sample_data]. *)
Lemma sample_format :
  __schame_msg__ repr_opaque sample_logger "info" sample_data fresh_world =
    (Ok (Some (sample_console_line, sample_file_line)),
     set_ticks 2 fresh_world).
Proof. vm_compute. reflexivity. Qed.

Lemma C7_witness :
  ("warning" ≠ "info" ∧ "warning" ≠ "error" ∧
   __schame_msg__ repr_opaque sample_logger "warning" [] fresh_world =
     (Ok None, fresh_world))
  ∧
  ("debug" ≠ "info" ∧ "debug" ≠ "error" ∧
   __schame_msg__ repr_opaque sample_logger "debug" [] fresh_world =
     (Ok None, fresh_world)).
Proof.
  split; (split; [discriminate|]; split; [discriminate|]);
    apply C7_other_kinds_format_nothing; discriminate.
Defined.

Lemma C3_witness :
  color_lvl sample_logger = false ∧
  __schame_msg__ repr_opaque sample_logger "info" sample_data fresh_world =
    (Ok (Some (sample_console_line, sample_file_line)),
     set_ticks 2 fresh_world) ∧
  has_sgr sample_console_line = true.
Proof.
  split; [reflexivity|]. split; [vm_compute; reflexivity|].
  apply (C3_console_colored_whatever_flag repr_opaque sample_logger "info"
           sample_data fresh_world sample_console_line sample_file_line
           (set_ticks 2 fresh_world)).
  vm_compute. reflexivity.
Defined.

Lemma C4_witness :
  __schame_msg__ repr_opaque sample_logger "info" sample_data fresh_world =
    (Ok (Some (sample_console_line, sample_file_line)),
     set_ticks 2 fresh_world) ∧
  ends_with LF sample_file_line = true ∧
  has_char ESC sample_file_line = false ∧
  has_sgr sample_file_line = false.
Proof.
  split; [vm_compute; reflexivity|].
  destruct (C4_file_text_plain repr_opaque sample_logger "info"
              sample_data fresh_world sample_console_line sample_file_line
              (set_ticks 2 fresh_world)) as [Hend Hplain].
  { vm_compute. reflexivity. }
  split; [exact Hend|].
  apply Hplain. intros key v Hin Hget.
  apply list_elem_of_In in Hin. simpl in Hin.
  destruct Hin as [<-|[<-|[<-|[<-|[]]]]];
    vm_compute in Hget; injection Hget as <-; reflexivity.
Defined.

(** A function that returns [{"detail": "not found"}]: the result carries
    the status code "-", not 200. *)
Lemma C1_witness :
  isinstance_dict (VDict [("detail", VStr "not found")])
    || is_None (VDict [("detail", VStr "not found")]) = true
  ∧
  ∃ items,
    normalize (VDict [("detail", VStr "not found")]) = VDotMap items ∧
    dict_get "status_code" items = Some (VStr "-") ∧
    getattr (normalize (VDict [("detail", VStr "not found")])) "status_code" =
      Ok (VStr "-").
Proof.
  split; [reflexivity|].
  apply (C1_normalized_status (VDict [("detail", VStr "not found")])).
  reflexivity.
Defined.

(** The same function behind the wrapper: the call is logged as an error
    with the message "OK", and the value returned holds the status code
    "-"; a function that returns [None] gets the status code 200. *)
Example missing_status_code_logged_as_error :
  wrapper repr_opaque sample_logger true false
    (returning "handler" (VDict [("detail", VStr "not found")])) [] []
    logged_world =
    (Ok (VDotMap [("detail", VStr "not found"); ("status_code", VStr "-")]),
     {| console :=
          [FAIL +:+ "ERROR" +:+ ENDC +:+ ":    2024-05-17 09:30 ||" +:+
           WHITE +:+ BOLD +:+ "   -    " +:+ ENDC +:+ "||" +:+
           WHITE +:+ BOLD +:+ "         handler         " +:+ ENDC +:+ "||" +:+
           FAIL +:+ "   -   || OK" +:+ ENDC];
        fs := fs logged_world;
        cwd := "/srv";
        clock := sample_clock;
        ticks := 2 |})
  ∧
  normalize VNone = VDotMap [("status_code", VInt 200)].
Proof. split; vm_compute; reflexivity. Qed.

Lemma C2_witness :
  write_all sample_logger = true ∧
  (getattr (normalize (VDict [("status_code", VInt 404)])) "status_code" =
     Ok (VInt 404)) ∧
  (VInt 404 ≠ VInt 200 →
   log_kind (normalize (VDict [("status_code", VInt 404)])) = Ok "error" ∧
   wrapper repr_opaque sample_logger true true
     (returning "handler" (VDict [("status_code", VInt 404)])) [] [] logged_world =
     emit repr_opaque sample_logger true true "error"
       (VStr "-") (VStr "handler") (VStr "OK")
       (normalize (VDict [("status_code", VInt 404)])) logged_world).
Proof.
  split; [reflexivity|]. split; [reflexivity|].
  apply (C2_kind_by_status repr_opaque sample_logger true true
           (returning "handler" (VDict [("status_code", VInt 404)])) [] []
           logged_world (VDict [("status_code", VInt 404)]) logged_world
           (VStr "-") (VStr "handler") (VStr "OK")
           (normalize (VDict [("status_code", VInt 404)])) (VInt 404));
    reflexivity.
Defined.

Lemma C5_witness :
  write_all silent_logger = false ∧
  call (returning "handler" VNone) [] [] logged_world = (Ok VNone, logged_world) ∧
  wrapper repr_opaque silent_logger true true
    (returning "handler" VNone) [] [] logged_world =
    (Ok (VDotMap [("status_code", VInt 200)]), logged_world).
Proof.
  split; [reflexivity|]. split; [reflexivity|].
  apply (C5_disabled_no_effect repr_opaque silent_logger true true
           (returning "handler" VNone) [] [] logged_world (Ok VNone)
           logged_world);
    reflexivity.
Defined.


Lemma C9_witness :
  write_all sample_logger = true ∧
  sample_request ∈ [sample_request] ∧
  getattr sample_request "method" = Ok (VStr "GET") ∧
  dict_get "request" ([] : list (string * value)) = None ∧
  log_context (returning "handler" VNone) [] (normalize VNone) =
    Ok (VStr "-", VStr "handler", VStr "OK", normalize VNone) ∧
  log_context (returning "handler" VNone) [("request", sample_request)]
    (normalize VNone) =
    Ok (VStr "GET", VStr "/items", VDotMap [],
        getattr_store (normalize VNone) "body").
Proof.
  split; [reflexivity|]. split; [repeat constructor|].
  split; [reflexivity|]. split; [reflexivity|].
  destruct (C9_request_by_keyword_only repr_opaque sample_logger true true
              (returning "handler" VNone) [sample_request] [] sample_request
              (VStr "GET") (VObj [("path", VStr "/items")]) (VStr "/items")
              logged_world VNone logged_world
              eq_refl ltac:(repeat constructor) eq_refl eq_refl eq_refl
              eq_refl eq_refl) as (Hdefault & _ & Hkeyword).
  split; [exact Hdefault|].
  apply Hkeyword; reflexivity.
Defined.

Lemma C10_witness :
  isinstance_dict (VInt 5) || is_None (VInt 5) = false ∧
  getattr (VInt 5) "status_code" = Raise AttributeError ∧
  normalize (VInt 5) = VInt 5 ∧
  wrapper repr_opaque silent_logger true true
    (returning "handler" (VInt 5)) [] [] logged_world =
    (Ok (VInt 5), logged_world) ∧
  wrapper repr_opaque sample_logger true true
    (returning "handler" (VInt 5)) [] [] logged_world =
    (Raise AttributeError, logged_world).
Proof.
  split; [reflexivity|]. split; [reflexivity|].
  destruct (C10_unnormalized_result repr_opaque silent_logger true true
              (returning "handler" (VInt 5)) [] [] logged_world (VInt 5)
              logged_world eq_refl eq_refl) as (Hsame & Hoff & _ & _).
  destruct (C10_unnormalized_result repr_opaque sample_logger true true
              (returning "handler" (VInt 5)) [] [] logged_world (VInt 5)
              logged_world eq_refl eq_refl) as (_ & _ & Hon & _).
  split; [exact Hsame|]. split; [apply Hoff; reflexivity|].
  apply Hon; reflexivity.
Defined.

Lemma C8_witness :
  (∃ w', get_path sample_logger blocked_world = (Ok true, w')) ∧
  exit_path sample_logger ≠ EmptyString ∧
  fs logged_world !! components (exit_path sample_logger) =
    Some (File true "old line") ∧
  get_path sample_logger logged_world = (Ok true, logged_world).
Proof.
  split; [apply (C8_get_path_idempotent sample_logger blocked_world)|].
  split; [discriminate|]. split; [vm_compute; reflexivity|].
  apply (proj2 (C8_get_path_idempotent sample_logger logged_world)
           true "old line"); [discriminate | vm_compute; reflexivity].
Defined.

(** In a blocked world the creation fails, [get_path] still answers
    [True], and the world is as it was. *)
Example get_path_blocked :
  get_path sample_logger blocked_world = (Ok true, blocked_world).
Proof. vm_compute. reflexivity. Qed.

(** The constructor creates the directory and the file with its header
    line; a second check of the path then changes nothing. *)
Example init_creates_log_file :
  ∃ w',
    __init__ "info" (Some "/log/file.log") false true fresh_world =
      (Ok sample_logger, w') ∧
    fs w' !! ["srv"; "log"] = Some (Dir true) ∧
    fs w' !! ["srv"; "log"; "file.log"] =
      Some (File true ("DEBUG:    2024-05-17 09:30 || " +:+ created_text +:+ NL)) ∧
    get_path sample_logger w' = (Ok true, w').
Proof.
  eexists. split; [vm_compute; reflexivity|].
  split; [vm_compute; reflexivity|].
  split; vm_compute; reflexivity.
Qed.

(* ===================================================================== *)
(** * Paths *)
(* ===================================================================== *)

Section PathFacts.

(** A separator closes the component under way. *)
Lemma components_go_sep a b cur :
  components_go (a ++ "/"%char :: b) cur =
    components_go a cur ++ components_go b [].
Proof.
  revert cur. induction a as [|c a IH]; intros cur; simpl.
  - destruct cur; reflexivity.
  - destruct (is_sep c).
    + destruct cur; simpl; rewrite IH; reflexivity.
    + apply IH.
Qed.

(** Characters without a separator make one component. *)
Lemma components_go_plain t cur :
  forallb (λ c, negb (is_sep c)) t = true →
  cur ++ t ≠ [] →
  components_go t cur = [String.string_of_list_ascii (rev cur ++ t)].
Proof.
  revert cur. induction t as [|c t IH]; intros cur Hplain Hne; simpl.
  - rewrite app_nil_r in *. destruct cur; [contradiction | reflexivity].
  - simpl in Hplain. apply andb_true_iff in Hplain as [Hc Ht].
    apply negb_true_iff in Hc. rewrite Hc.
    rewrite (IH (c :: cur) Ht); [|discriminate].
    simpl. rewrite <- app_assoc. reflexivity.
Qed.

Lemma removelast_snoc {A} (l : list A) x : removelast (l ++ [x]) = l.
Proof.
  induction l as [|a l IH]; simpl; [reflexivity|].
  rewrite IH. destruct (l ++ [x]) eqn:E; [|reflexivity].
  destruct l; discriminate.
Qed.

(** Dropping the text after the last separator drops the last component. *)
Lemma components_drop_last r t :
  forallb (λ c, negb (is_sep c)) t = true →
  t ≠ [] →
  removelast (components_go (rev r ++ t) []) =
    components_go (rev (drop_while (λ c, negb (is_sep c)) r)) [].
Proof.
  revert t. induction r as [|c r IH]; intros t Hplain Hne; simpl.
  - rewrite (components_go_plain t [] Hplain Hne). reflexivity.
  - rewrite <- app_assoc. simpl.
    destruct (is_sep c) eqn:Hc; simpl.
    + assert (c = "/"%char) as ->.
      { unfold is_sep in Hc. apply Ascii.eqb_eq in Hc. exact Hc. }
      rewrite !components_go_sep.
      rewrite (components_go_plain t [] Hplain Hne). simpl.
      rewrite app_nil_r. apply removelast_snoc.
    + apply IH; [|discriminate].
      simpl. rewrite Hc. exact Hplain.
Qed.

(** Trailing separators add no component. *)
Lemma components_strip_seps r :
  components_go (rev (drop_while is_sep r)) [] = components_go (rev r) [].
Proof.
  induction r as [|c r IH]; simpl; [reflexivity|].
  destruct (is_sep c) eqn:Hc; [|reflexivity].
  assert (c = "/"%char) as ->.
  { unfold is_sep in Hc. apply Ascii.eqb_eq in Hc. exact Hc. }
  rewrite IH, components_go_sep. simpl. rewrite app_nil_r. reflexivity.
Qed.

Lemma ends_with_rev c s :
  ends_with c s = false →
  match rev (String.list_ascii_of_string s) with
  | [] => True
  | x :: _ => Ascii.eqb x c = false
  end.
Proof.
  induction s as [|a s IH]; simpl; [trivial|].
  destruct s as [|b s].
  - simpl. intros H. exact H.
  - intros H. specialize (IH H). simpl in *.
    destruct (rev (String.list_ascii_of_string s) ++ [b]) eqn:E.
    + destruct (rev (String.list_ascii_of_string s)); discriminate.
    + simpl. exact IH.
Qed.

(** [dirname] leads to the directory of the path: its components are
    those of the path without the last one, for a path that does not end
    in a separator. *)
Lemma components_dirname p :
  ends_with "/" p = false →
  components (dirname p) = removelast (components p).
Proof.
  intros Hend. apply ends_with_rev in Hend.
  unfold components, dirname.
  set (l := String.list_ascii_of_string p) in *.
  assert (Hl : l = rev (rev l)) by (symmetry; apply rev_involutive).
  destruct (rev l) as [|c r] eqn:Er.
  - simpl in Hl. rewrite Hl. reflexivity.
  - assert (Hc : is_sep c = false) by exact Hend.
    rewrite Hl. change (rev (c :: r)) with (rev r ++ [c]).
    cbn [drop_while]. rewrite Hc. cbn [negb].
    assert (Hdrop :
      removelast (components_go (rev r ++ [c]) []) =
      components_go (rev (drop_while (λ c, negb (is_sep c)) r)) []).
    { apply components_drop_last; [simpl; rewrite Hc; reflexivity | discriminate]. }
    rewrite Hdrop.
    destruct (drop_while is_sep (drop_while (λ c0, negb (is_sep c0)) r)) eqn:Es;
      rewrite String.list_ascii_of_string_of_list_ascii; [reflexivity|].
    rewrite <- Es. apply components_strip_seps.
Qed.

(** A second path that starts with a separator adds its components to
    those of the first. *)
Lemma components_app_sep a b :
  components (a +:+ String "/" b) = components a ++ components (String "/" b).
Proof.
  unfold components.
  assert (Happ : ∀ x y, String.list_ascii_of_string (x +:+ y) =
                        String.list_ascii_of_string x ++ String.list_ascii_of_string y).
  { induction x as [|c x IH]; intros y; simpl; [reflexivity|].
    rewrite IH. reflexivity. }
  rewrite Happ. simpl. rewrite components_go_sep. reflexivity.
Qed.

End PathFacts.

(* ===================================================================== *)
(** * The file-system calls *)
(* ===================================================================== *)

Section FsFacts.

Implicit Types (f : gmap (list string) node) (p q : list string).

Lemma node_at_lookup f p n : f !! p = Some n → node_at f p = Some n.
Proof. intros H. unfold node_at. rewrite H. reflexivity. Qed.

Lemma node_at_None f p : node_at f p = None → f !! p = None ∧ p ≠ [].
Proof.
  unfold node_at. destruct (f !! p); [discriminate|].
  destruct p; [discriminate|]. intros _. split; [reflexivity | discriminate].
Qed.

Lemma node_at_nonroot f p : p ≠ [] → node_at f p = f !! p.
Proof.
  intros Hp. unfold node_at. destruct (f !! p); [reflexivity|].
  destruct p; [contradiction | reflexivity].
Qed.

Lemma node_at_same f f' p : f' !! p = f !! p → node_at f' p = node_at f p.
Proof. intros H. unfold node_at. rewrite H. reflexivity. Qed.

Lemma is_dir_node f p : is_dir f p = true → ∃ wr, node_at f p = Some (Dir wr).
Proof.
  unfold is_dir. destruct (node_at f p) as [[wr|wr b]|]; try discriminate.
  eauto.
Qed.

(** A plain path is not empty and does not end in a separator. *)
Lemma plain_path_shape s :
  plain_path s = true → s ≠ EmptyString ∧ ends_with "/" s = false.
Proof.
  unfold plain_path. intros H.
  repeat (apply andb_true_iff in H as [H ?]).
  split; [intros ->; discriminate|].
  apply negb_true_iff. assumption.
Qed.

(** The walk is stopped by a missing directory or by a regular file
    only. *)
Lemma walk_error_cases f done todo e :
  walk_error f done todo = Some e →
  e = FileNotFoundError ∨ e = NotADirectoryError.
Proof.
  revert done. induction todo as [|c todo IH]; intros done; simpl;
    [discriminate|].
  destruct (node_at f done) as [[wr|wr b]|];
    [apply IH | |]; intros H; injection H as <-; auto.
Qed.

(** The walk goes through when every directory on the way is there. *)
Lemma walk_error_dirs f done todo :
  (∀ k, k < length todo → is_dir f (done ++ take k todo) = true) →
  walk_error f done todo = None.
Proof.
  revert done. induction todo as [|c todo IH]; intros done H; simpl;
    [reflexivity|].
  pose proof (H 0 ltac:(simpl; lia)) as H0.
  simpl in H0. rewrite app_nil_r in H0.
  apply is_dir_node in H0 as [wr ->].
  apply IH. intros k Hk. rewrite <- app_assoc.
  apply (H (S k)). simpl. lia.
Qed.

(** The walk stops with [FileNotFoundError] at the first directory that
    is missing, when the directories above it are there. *)
Lemma walk_error_missing f done pre d rest :
  (∀ k, k ≤ length pre → is_dir f (done ++ take k pre) = true) →
  node_at f (done ++ pre ++ [d]) = None →
  rest ≠ [] →
  walk_error f done (pre ++ d :: rest) = Some FileNotFoundError.
Proof.
  revert done. induction pre as [|c pre IH]; intros done Hdirs Hmiss Hrest.
  - pose proof (Hdirs 0 ltac:(simpl; lia)) as H0.
    simpl in H0. rewrite app_nil_r in H0.
    apply is_dir_node in H0 as [wr H0].
    destruct rest as [|r rest]; [contradiction|].
    simpl in *. rewrite H0, Hmiss. reflexivity.
  - pose proof (Hdirs 0 ltac:(simpl; lia)) as H0.
    simpl in H0. rewrite app_nil_r in H0.
    apply is_dir_node in H0 as [wr H0].
    simpl. rewrite H0. apply IH; [| |exact Hrest].
    + intros k Hk. rewrite <- app_assoc.
      apply (Hdirs (S k)). simpl. lia.
    + rewrite <- app_assoc. exact Hmiss.
Qed.

Lemma create_error_cases f p e :
  create_error f p = Some e →
  e = FileNotFoundError ∨ e = NotADirectoryError ∨ e = PermissionError.
Proof.
  unfold create_error. destruct (walk_error f [] p) as [e'|] eqn:E.
  - intros H; injection H as <-.
    destruct (walk_error_cases _ _ _ _ E); auto.
  - destruct (parent_writable f p); [discriminate|].
    intros H; injection H as <-. auto.
Qed.

(** [f'] extends [f]: it keeps every node of [f] and adds writable
    directories only. *)
Local Abbreviation extends f f' :=
  ((∀ q n, f !! q = Some n → f' !! q = Some n) ∧
   (∀ q n, f' !! q = Some n → f !! q = Some n ∨ n = Dir true)) (only parsing).

Lemma mkdir_extends p f r f' : mkdir p f = (r, f') → extends f f'.
Proof.
  unfold mkdir. destruct (node_at f p) eqn:Hp.
  { intros H; injection H as <- <-. split; auto. }
  destruct (create_error f p).
  { intros H; injection H as <- <-. split; auto. }
  intros H; injection H as <- <-.
  apply node_at_None in Hp as [Hp _]. split; intros q n Hq.
  - rewrite lookup_insert_ne; [exact Hq | congruence].
  - destruct (decide (p = q)) as [->|Hne].
    + rewrite lookup_insert_eq in Hq. right. congruence.
    + rewrite lookup_insert_ne in Hq by exact Hne. left. exact Hq.
Qed.

Lemma makedirs_rev_extends rp f r f' :
  makedirs_rev rp f = (r, f') → extends f f'.
Proof.
  revert f r f'. induction rp as [|x rhead IH]; intros f r f' H; simpl in H.
  { injection H as <- <-. split; auto. }
  assert (Hhead : ∃ r1 f1,
    match node_at f (rev rhead) with
    | Some _ => (Ok tt, f)
    | None =>
        match makedirs_rev rhead f with
        | (Raise FileExistsError, f0) => (Ok tt, f0)
        | other => other
        end
    end = (r1, f1) ∧ extends f f1).
  { destruct (node_at f (rev rhead)).
    - exists (Ok tt), f. split; [reflexivity|]. split; auto.
    - destruct (makedirs_rev rhead f) as [r0 f0] eqn:E.
      specialize (IH _ _ _ E).
      destruct r0 as [[]|e]; [eauto|].
      destruct e; eauto. }
  destruct Hhead as (r1 & f1 & E1 & [Hk1 Ha1]). rewrite E1 in H.
  destruct r1 as [[]|e].
  - destruct (mkdir (rev rhead ++ [x]) f1) as [r2 f2] eqn:E2.
    pose proof (mkdir_extends _ _ _ _ E2) as [Hk2 Ha2].
    assert (f' = f2) as ->.
    { destruct r2 as [[]|e]; [injection H as _ <-; reflexivity|].
      destruct (is_OSError e && is_dir f2 (rev rhead ++ [x]));
        injection H as _ <-; reflexivity. }
    split; intros q n Hq.
    + auto.
    + destruct (Ha2 _ _ Hq) as [Hq1|]; [|auto]. auto.
  - injection H as _ <-. split; auto.
Qed.

Lemma with_dirs_snoc pre suf c f :
  with_dirs pre (suf ++ [c]) f =
    <[pre ++ suf ++ [c] := Dir true]> (with_dirs pre suf f).
Proof.
  revert pre f. induction suf as [|x suf IH]; intros pre f; simpl.
  - reflexivity.
  - rewrite IH, <- app_assoc. reflexivity.
Qed.

Lemma with_dirs_lookup_long pre suf f q :
  length pre + length suf < length q →
  with_dirs pre suf f !! q = f !! q.
Proof.
  revert pre f. induction suf as [|x suf IH]; intros pre f Hlen; simpl.
  - reflexivity.
  - rewrite IH.
    + apply lookup_insert_ne. intros <-.
      rewrite length_app in Hlen. simpl in Hlen. lia.
    + rewrite length_app. simpl in *. lia.
Qed.

Lemma with_dirs_lookup_short pre suf f q :
  length q ≤ length pre →
  with_dirs pre suf f !! q = f !! q.
Proof.
  revert pre f. induction suf as [|x suf IH]; intros pre f Hlen; simpl.
  - reflexivity.
  - rewrite IH by (rewrite length_app; simpl; lia).
    apply lookup_insert_ne. intros <-.
    rewrite length_app in Hlen. simpl in Hlen. lia.
Qed.

Lemma with_dirs_lookup_last pre suf f :
  suf ≠ [] → with_dirs pre suf f !! (pre ++ suf) = Some (Dir true).
Proof.
  intros Hne. destruct suf as [|x suf] using rev_ind; [contradiction|].
  rewrite with_dirs_snoc. apply lookup_insert_eq.
Qed.

Lemma with_dirs_lookup_mid pre suf f k :
  0 < k ≤ length suf →
  with_dirs pre suf f !! (pre ++ take k suf) = Some (Dir true).
Proof.
  revert k. induction suf as [|x suf IH] using rev_ind; intros k Hk;
    [simpl in Hk; lia|].
  rewrite length_app in Hk. simpl in Hk.
  rewrite with_dirs_snoc.
  destruct (decide (k = length suf + 1)) as [->|Hne].
  - rewrite take_ge by (rewrite length_app; simpl; lia).
    apply lookup_insert_eq.
  - rewrite take_app_le by lia.
    rewrite lookup_insert_ne; [apply IH; lia|].
    intros Heq. apply app_inv_head in Heq.
    apply (f_equal length) in Heq.
    rewrite length_app, length_take in Heq. simpl in Heq. lia.
Qed.

(** With the directories added, the way down to the last of them is made
    of directories. *)
Lemma with_dirs_is_dir pre suf f k :
  (∀ j, j ≤ length pre → is_dir f (take j pre) = true) →
  k ≤ length pre + length suf →
  is_dir (with_dirs pre suf f) (take k (pre ++ suf)) = true.
Proof.
  intros Hdirs Hk. destruct (decide (k ≤ length pre)) as [Hle|Hgt].
  - rewrite take_app_le by exact Hle.
    unfold is_dir.
    rewrite (node_at_same f (with_dirs pre suf f)).
    + apply Hdirs, Hle.
    + apply with_dirs_lookup_short. rewrite length_take. lia.
  - rewrite take_app_ge by lia.
    unfold is_dir.
    rewrite (node_at_lookup _ _ (Dir true)); [reflexivity|].
    apply with_dirs_lookup_mid. lia.
Qed.

Lemma walk_with_dirs pre suf f c :
  (∀ j, j ≤ length pre → is_dir f (take j pre) = true) →
  walk_error (with_dirs pre suf f) [] (pre ++ suf ++ [c]) = None.
Proof.
  intros Hdirs. apply walk_error_dirs. intros k Hk.
  rewrite !length_app in Hk. simpl in Hk. simpl.
  rewrite app_assoc, take_app_le by (rewrite length_app; lia).
  apply with_dirs_is_dir; [exact Hdirs | lia].
Qed.

Lemma with_dirs_node_last pre suf f :
  node_at f pre = Some (Dir true) →
  node_at (with_dirs pre suf f) (pre ++ suf) = Some (Dir true).
Proof.
  intros Hpre. destruct suf as [|x suf].
  - rewrite app_nil_r. exact Hpre.
  - apply node_at_lookup, with_dirs_lookup_last. discriminate.
Qed.

(** [makedirs] creates the missing directories below an existing
    writable one, from the top down. *)
Lemma makedirs_rev_creates suf pre f :
  (∀ j, j ≤ length pre → is_dir f (take j pre) = true) →
  node_at f pre = Some (Dir true) →
  (∀ k, 0 < k ≤ length suf → node_at f (pre ++ take k suf) = None) →
  makedirs_rev (rev (pre ++ suf)) f = (Ok tt, with_dirs pre suf f).
Proof.
  intros Hdirs Hpre.
  induction suf as [|c suf IH] using rev_ind; intros Hfree.
  - rewrite app_nil_r. simpl.
    destruct pre as [|x pre0 _] using rev_ind; [reflexivity|].
    rewrite rev_app_distr. simpl. rewrite rev_involutive.
    pose proof (Hdirs (length pre0)
                  ltac:(rewrite length_app; simpl; lia)) as Hparent.
    rewrite take_app_length in Hparent.
    apply is_dir_node in Hparent as [wr ->].
    unfold mkdir. rewrite Hpre. unfold is_dir. rewrite Hpre. reflexivity.
  - assert (Hfree' : ∀ k, 0 < k ≤ length suf →
                          node_at f (pre ++ take k suf) = None).
    { intros k Hk. rewrite <- (Hfree k).
      - rewrite take_app_le by lia. reflexivity.
      - rewrite length_app. simpl. lia. }
    specialize (IH Hfree').
    assert (Hp : node_at f (pre ++ suf ++ [c]) = None).
    { rewrite <- (Hfree (length (suf ++ [c]))).
      - rewrite firstn_all. reflexivity.
      - rewrite length_app. simpl. lia. }
    rewrite app_assoc, rev_app_distr. simpl.
    rewrite rev_involutive.
    assert (Hhead :
      match node_at f (pre ++ suf) with
      | Some _ => (Ok tt, f)
      | None =>
          match makedirs_rev (rev (pre ++ suf)) f with
          | (Raise FileExistsError, f0) => (Ok tt, f0)
          | other => other
          end
      end = (Ok tt, with_dirs pre suf f)).
    { destruct suf as [|y suf0].
      - rewrite app_nil_r, Hpre. reflexivity.
      - assert (Hnone : node_at f (pre ++ y :: suf0) = None).
        { rewrite <- (Hfree' (length (y :: suf0))) by (simpl; lia).
          rewrite firstn_all. reflexivity. }
        rewrite Hnone, IH. reflexivity. }
    rewrite Hhead.
    unfold mkdir.
    apply node_at_None in Hp as [Hp Hne].
    assert (Hq : node_at (with_dirs pre suf f) ((pre ++ suf) ++ [c]) = None).
    { rewrite node_at_nonroot by (destruct (pre ++ suf); discriminate).
      rewrite with_dirs_lookup_long.
      - rewrite <- app_assoc. exact Hp.
      - rewrite !length_app. simpl. lia. }
    rewrite Hq. unfold create_error, parent_writable.
    rewrite <- app_assoc, (walk_with_dirs pre suf f c Hdirs), app_assoc.
    rewrite removelast_snoc, (with_dirs_node_last pre suf f Hpre).
    rewrite with_dirs_snoc, app_assoc. reflexivity.
Qed.

End FsFacts.

(* ===================================================================== *)
(** * Further properties of the log-file check *)
(* ===================================================================== *)

Section GetPathFacts.

Implicit Types (f : gmap (list string) node) (p q : list string).

Lemma components_nonempty_path s : components s ≠ [] → s ≠ EmptyString.
Proof. intros H ->. apply H. reflexivity. Qed.

Lemma os_path_exists_nonempty s w :
  s ≠ EmptyString →
  os_path_exists s w =
    (Ok (bool_decide (is_Some (node_at (fs w) (components s)))), w).
Proof. intros Hs. destruct s; [contradiction | reflexivity]. Qed.

(** When [os.path.exists] fails on a non-empty path, no node is there. *)
Lemma os_path_exists_false s w :
  s ≠ EmptyString →
  os_path_exists s w = (Ok false, w) →
  node_at (fs w) (components s) = None.
Proof.
  intros Hs. unfold os_path_exists. destruct s; [contradiction|].
  intros H. injection H as H.
  apply bool_decide_eq_false in H.
  destruct (node_at (fs w) _); [|reflexivity].
  exfalso. apply H. eauto.
Qed.

(** [get_path] on a missing log file below an existing writable
    directory. *)
Lemma get_path_creates self w pre suf name :
  ends_with "/" (exit_path self) = false →
  components (exit_path self) = pre ++ suf ++ [name] →
  (∀ j, j ≤ length pre → is_dir (fs w) (take j pre) = true) →
  node_at (fs w) pre = Some (Dir true) →
  (∀ k, 0 < k ≤ length (suf ++ [name]) →
        node_at (fs w) (pre ++ take k (suf ++ [name])) = None) →
  get_path self w =
    (Ok true,
     {| console := console w;
        fs := <[pre ++ suf ++ [name] :=
                  File true (header_line (clock w (ticks w)))]>
                (with_dirs pre suf (fs w));
        cwd := cwd w;
        clock := clock w;
        ticks := S (ticks w) |}).
Proof.
  intros Hend Hshape Hdirs Hpre Hfree.
  assert (Hne : exit_path self ≠ EmptyString).
  { apply components_nonempty_path. rewrite Hshape.
    destruct pre, suf; discriminate. }
  assert (Hfile : node_at (fs w) (pre ++ suf ++ [name]) = None).
  { rewrite <- (Hfree (length (suf ++ [name]))).
    - rewrite firstn_all. reflexivity.
    - rewrite length_app. simpl. lia. }
  assert (Hmk : makedirs_rev (rev (pre ++ suf)) (fs w) =
                (Ok tt, with_dirs pre suf (fs w))).
  { apply makedirs_rev_creates; [exact Hdirs | exact Hpre |].
    intros k Hk. rewrite <- (Hfree k).
    - rewrite take_app_le by lia. reflexivity.
    - rewrite length_app. simpl. lia. }
  assert (Hdir : components (dirname (exit_path self)) = pre ++ suf).
  { rewrite (components_dirname _ Hend), Hshape, app_assoc.
    apply removelast_snoc. }
  assert (Hnew : node_at (with_dirs pre suf (fs w)) (pre ++ suf ++ [name]) = None).
  { apply node_at_None in Hfile as [Hfile Hroot].
    rewrite node_at_nonroot by exact Hroot.
    rewrite with_dirs_lookup_long; [exact Hfile|].
    rewrite !length_app. simpl. lia. }
  unfold get_path, bind at 1 2.
  rewrite (os_path_exists_nonempty _ w Hne), Hshape, Hfile.
  rewrite bool_decide_eq_false_2 by (intros [n Hn]; discriminate).
  cbn [negb].
  unfold try_except, bind, makedirs, open_, now, file_write, ret.
  rewrite Hdir, Hmk. cbn [fs set_fs set_ticks].
  rewrite Hshape, Hnew, Hend.
  rewrite (walk_with_dirs pre suf (fs w) name Hdirs).
  unfold parent_writable.
  replace (removelast (pre ++ suf ++ [name])) with (pre ++ suf)
    by (rewrite app_assoc, removelast_snoc; reflexivity).
  rewrite (with_dirs_node_last pre suf (fs w) Hpre).
  cbn [fs set_fs set_ticks clock ticks console cwd].
  unfold node_at. rewrite lookup_insert_eq, insert_insert_eq.
  reflexivity.
Qed.

(** X1.  When the log file and possibly some directories on the way to
    it are missing below an existing writable directory, [get_path]
    creates the missing directories and the file, writes the one header
    line stamped with the current time into it, reads the clock once and
    prints nothing; a second call then changes nothing.  The path is a
    plain one, [pre] is the deepest directory that exists, and the
    directories above [pre] are there. *)
Theorem X1_get_path_creates_log_file self w pre suf name :
  plain_path (exit_path self) = true →
  components (exit_path self) = pre ++ suf ++ [name] →
  (∀ j, j ≤ length pre → is_dir (fs w) (take j pre) = true) →
  node_at (fs w) pre = Some (Dir true) →
  (∀ k, 0 < k ≤ length (suf ++ [name]) →
        node_at (fs w) (pre ++ take k (suf ++ [name])) = None) →
  get_path self w =
    (Ok true,
     {| console := console w;
        fs := <[pre ++ suf ++ [name] :=
                  File true (header_line (clock w (ticks w)))]>
                (with_dirs pre suf (fs w));
        cwd := cwd w;
        clock := clock w;
        ticks := S (ticks w) |})
  ∧
  get_path self
     {| console := console w;
        fs := <[pre ++ suf ++ [name] :=
                  File true (header_line (clock w (ticks w)))]>
                (with_dirs pre suf (fs w));
        cwd := cwd w;
        clock := clock w;
        ticks := S (ticks w) |} =
    (Ok true,
     {| console := console w;
        fs := <[pre ++ suf ++ [name] :=
                  File true (header_line (clock w (ticks w)))]>
                (with_dirs pre suf (fs w));
        cwd := cwd w;
        clock := clock w;
        ticks := S (ticks w) |}).
Proof.
  intros Hplain Hshape Hdirs Hpre Hfree.
  destruct (plain_path_shape _ Hplain) as [Hne Hend].
  split; [apply get_path_creates; assumption|].
  unfold get_path, bind at 1 2.
  erewrite os_path_exists_node; [reflexivity | exact Hne |].
  cbn [fs]. rewrite Hshape. apply lookup_insert_eq.
Qed.

(** [get_path] prints nothing, whatever the path. *)
Lemma get_path_console self w r w' :
  get_path self w = (r, w') → console w' = console w.
Proof.
  unfold get_path, bind, try_except, os_path_exists, makedirs, open_, now,
    file_write, ret.
  intros H. repeat case_match; simplify_eq; reflexivity.
Qed.

(** [get_path] returns [True] in every world. *)
Lemma get_path_total self w : ∃ w', get_path self w = (Ok true, w').
Proof.
  unfold get_path, bind at 1 2.
  unfold os_path_exists at 1.
  destruct (negb _).
  - unfold try_except.
    match goal with |- context [match ?m w with _ => _ end] =>
      destruct (m w) as [[[]|e] w'] end; simpl; eauto.
  - simpl. eauto.
Qed.

(** X2.  For a plain path, [get_path] never alters or removes a node of
    the file system: every file and directory that was there before the
    call is there, unchanged, after it.  It prints nothing and reads the
    clock at most once. *)
Theorem X2_get_path_keeps_nodes self w r w' :
  plain_path (exit_path self) = true →
  get_path self w = (r, w') →
  (∀ q n, fs w !! q = Some n → fs w' !! q = Some n) ∧
  console w' = console w ∧
  cwd w' = cwd w ∧
  clock w' = clock w ∧
  (ticks w' = ticks w ∨ ticks w' = S (ticks w)).
Proof.
  intros Hplain H.
  destruct (plain_path_shape _ Hplain) as [Hne Hend].
  unfold get_path, bind at 1 2 in H.
  destruct (os_path_exists (exit_path self) w) as [rb wb] eqn:Eex.
  assert (wb = w) as -> by (unfold os_path_exists in Eex; congruence).
  destruct rb as [[|]|e]; cbn [negb] in H.
  - injection H as _ <-. repeat split; auto.
  - pose proof (os_path_exists_false _ _ Hne Eex) as Hmiss.
    apply node_at_None in Hmiss as [Hmiss Hroot].
    set (c := components (exit_path self)) in *.
    unfold try_except, bind, makedirs, open_, now, file_write, ret in H.
    destruct (makedirs_rev (rev (components (dirname (exit_path self)))) (fs w))
      as [r1 f1] eqn:Edirs.
    pose proof (makedirs_rev_extends _ _ _ _ Edirs) as [Hkeep Hadd].
    destruct r1 as [[]|e1];
      [|injection H as _ <-; repeat split; auto].
    cbn [fs set_fs] in H. fold c in H. rewrite Hend in H.
    rewrite (node_at_nonroot f1 c Hroot) in H.
    destruct (f1 !! c) as [n1|] eqn:Ec.
    + destruct (Hadd _ _ Ec) as [Hold| ->]; [congruence|].
      injection H as _ <-. repeat split; auto.
    + destruct (walk_error f1 [] c);
        [injection H as _ <-; repeat split; auto|].
      destruct (parent_writable f1 c);
        [|injection H as _ <-; repeat split; auto].
      cbn [fs set_fs set_ticks clock ticks] in H.
      unfold node_at in H. rewrite lookup_insert_eq in H.
      injection H as _ <-. cbn.
      repeat split; auto.
      intros q n Hq.
      assert (c ≠ q) by congruence.
      rewrite !lookup_insert_ne by assumption. auto.
  - unfold os_path_exists in Eex. discriminate.
Qed.

End GetPathFacts.

(* ===================================================================== *)
(** * Properties of the append to the log file *)
(* ===================================================================== *)

Section WriteFileFacts.

Lemma string_app_assoc (a b c : string) : (a +:+ b) +:+ c = a +:+ (b +:+ c).
Proof.
  induction a as [|x a IH]; [reflexivity|].
  change (String x ((a +:+ b) +:+ c) = String x (a +:+ (b +:+ c))).
  rewrite IH. reflexivity.
Qed.

(** On an existing writable log file [write_file] appends. *)
Lemma write_file_existing self msg w bytes :
  ends_with "/" (exit_path self) = false →
  fs w !! components (exit_path self) = Some (File true bytes) →
  write_file self msg w =
    (Ok tt,
     set_fs (<[components (exit_path self) := File true (bytes +:+ msg)]> (fs w)) w).
Proof.
  intros Hend Hfile.
  unfold write_file, try_except, bind, open_, file_write, node_at.
  rewrite Hfile, Hend. cbn [fs set_fs]. rewrite lookup_insert_eq.
  unfold set_fs. cbn. rewrite insert_insert_eq. reflexivity.
Qed.

(** X3.  On an existing writable log file with a plain path,
    [write_file] puts the text after the bytes that are there and touches
    nothing else; two writes in a row leave the file as one write of the
    two texts joined. *)
Theorem X3_write_file_appends self w bytes a b :
  plain_path (exit_path self) = true →
  fs w !! components (exit_path self) = Some (File true bytes) →
  write_file self a w =
    (Ok tt,
     set_fs (<[components (exit_path self) := File true (bytes +:+ a)]> (fs w)) w)
  ∧
  bind (write_file self a) (λ _, write_file self b) w =
    write_file self (a +:+ b) w.
Proof.
  intros Hplain Hfile.
  destruct (plain_path_shape _ Hplain) as [_ Hend].
  split; [apply write_file_existing; assumption|].
  unfold bind. rewrite (write_file_existing self a w bytes Hend Hfile).
  rewrite (write_file_existing self (a +:+ b) w bytes Hend Hfile).
  erewrite write_file_existing;
    [|exact Hend | cbn [fs set_fs]; apply lookup_insert_eq].
  unfold set_fs. cbn. rewrite insert_insert_eq, string_app_assoc. reflexivity.
Qed.

(** On a missing log directory [write_file] prints its notice: [pre] is
    the deepest directory on the way that is there, and [d], the next one,
    is missing. *)
Lemma write_file_no_directory self msg w pre d rest :
  node_at (fs w) (components (exit_path self)) = None →
  components (exit_path self) = pre ++ d :: rest →
  rest ≠ [] →
  (∀ j, j ≤ length pre → is_dir (fs w) (take j pre) = true) →
  node_at (fs w) (pre ++ [d]) = None →
  write_file self msg w =
    (Ok tt, set_console (console w ++ ["File Not Found"]) w).
Proof.
  intros Hfile Hshape Hrest Hdirs Hdir.
  unfold write_file, try_except, bind, open_.
  rewrite Hfile, Hshape.
  rewrite (walk_error_missing (fs w) [] pre d rest Hdirs Hdir Hrest).
  reflexivity.
Qed.

(** X4.  What [write_file] does when the log file, at a plain path, is
    missing.  If a directory on the way to it is missing too (the
    directories above that one being there), [write_file] does not raise:
    it prints "File Not Found", creates nothing, and the text is lost.  If
    the directories are all there and the last one is writable, the file
    is created with the text as its contents, and nothing is printed. *)
Theorem X4_write_file_on_missing_file self msg w :
  plain_path (exit_path self) = true →
  node_at (fs w) (components (exit_path self)) = None →
  (∀ pre d rest,
     components (exit_path self) = pre ++ d :: rest →
     rest ≠ [] →
     (∀ j, j ≤ length pre → is_dir (fs w) (take j pre) = true) →
     node_at (fs w) (pre ++ [d]) = None →
     write_file self msg w =
       (Ok tt, set_console (console w ++ ["File Not Found"]) w))
  ∧
  ((∀ j, j < length (components (exit_path self)) →
         is_dir (fs w) (take j (components (exit_path self))) = true) →
   node_at (fs w) (removelast (components (exit_path self))) = Some (Dir true) →
   write_file self msg w =
     (Ok tt,
      set_fs (<[components (exit_path self) := File true msg]> (fs w)) w)).
Proof.
  intros Hplain Hfile.
  destruct (plain_path_shape _ Hplain) as [_ Hend].
  split.
  - intros pre d rest Hshape Hrest Hdirs Hdir.
    apply (write_file_no_directory self msg w pre d rest); assumption.
  - intros Hdirs Hdir.
    unfold write_file, try_except, bind, open_, file_write, parent_writable.
    rewrite Hfile, Hend, Hdir.
    rewrite (walk_error_dirs (fs w) [] _ Hdirs).
    cbn [fs set_fs]. unfold node_at.
    rewrite lookup_insert_eq. unfold set_fs. cbn.
    rewrite insert_insert_eq. reflexivity.
Qed.

(** What [write_file] can do at all. *)
Lemma write_file_cases self msg w r w' :
  write_file self msg w = (r, w') →
  (r = Ok tt ∧ w' = set_console (console w ++ ["File Not Found"]) w)
  ∨ (∃ bytes, r = Ok tt ∧
       w' = set_fs (<[components (exit_path self) := File true bytes]> (fs w)) w)
  ∨ ((r = Raise IsADirectoryError ∨ r = Raise NotADirectoryError ∨
      r = Raise PermissionError) ∧ w' = w).
Proof.
  unfold write_file, try_except, bind, open_, file_write.
  set (c := components (exit_path self)).
  destruct (node_at (fs w) c) as [[wr|wr bytes]|] eqn:Hc.
  - intros H; injection H as <- <-. right; right. auto.
  - destruct (ends_with "/" (exit_path self)).
    { intros H; injection H as <- <-. right; right. auto. }
    destruct wr.
    + cbn [fs set_fs]. unfold node_at at 1. rewrite lookup_insert_eq.
      intros H; injection H as <- <-. right; left.
      eexists. split; [reflexivity|].
      unfold set_fs. cbn. rewrite insert_insert_eq. reflexivity.
    + intros H; injection H as <- <-. right; right. auto.
  - destruct (walk_error (fs w) [] c) as [e|] eqn:Ewalk.
    { destruct (walk_error_cases _ _ _ _ Ewalk) as [-> | ->];
        intros H; injection H as <- <-; [left | right; right]; auto. }
    destruct (ends_with "/" (exit_path self)).
    { intros H; injection H as <- <-. right; right. auto. }
    destruct (parent_writable (fs w) c).
    + cbn [fs set_fs]. unfold node_at at 1. rewrite lookup_insert_eq.
      intros H; injection H as <- <-. right; left.
      eexists. split; [reflexivity|].
      unfold set_fs. cbn. rewrite insert_insert_eq. reflexivity.
    + intros H; injection H as <- <-. right; right. auto.
Qed.

(** X5.  With a plain path, [write_file] touches no path but the log
    file's, never raises [FileNotFoundError], and when it raises (the
    path is a directory, a regular file stands where a directory should
    be, or writing is not permitted) it leaves the world as it was.  The
    console gets at most the one line "File Not Found", and then the file
    system is unchanged. *)
Theorem X5_write_file_frame self msg w r w' :
  plain_path (exit_path self) = true →
  write_file self msg w = (r, w') →
  (∀ q, q ≠ components (exit_path self) → fs w' !! q = fs w !! q) ∧
  r ≠ Raise FileNotFoundError ∧
  (r ≠ Ok tt → w' = w) ∧
  (console w' = console w ∨
   (console w' = console w ++ ["File Not Found"] ∧ fs w' = fs w)) ∧
  clock w' = clock w ∧ ticks w' = ticks w.
Proof.
  intros _ H. apply write_file_cases in H.
  destruct H as [[-> ->]|[(bytes & -> & ->)|[Hr ->]]].
  - repeat split; auto; try discriminate. intros []. reflexivity.
  - repeat split; auto; try discriminate.
    + intros q Hq. cbn. apply lookup_insert_ne. congruence.
    + intros []. reflexivity.
  - repeat split; auto.
    destruct Hr as [->|[->| ->]]; discriminate.
Qed.

End WriteFileFacts.

(* ===================================================================== *)
(** * Further properties of the formatter *)
(* ===================================================================== *)

Section FormatterMore.

Variable repr_of : value → string.

Lemma formattable_center width v :
  formattable v = true → ∃ s, py_format_center width v = Ok s.
Proof. destruct v; simpl; intros H; try discriminate; eauto. Qed.

Lemma unformattable_center width v :
  formattable v = false → py_format_center width v = Raise TypeError.
Proof. destruct v; simpl; intros H; try discriminate; reflexivity. Qed.

(** X6.  For the kinds "info" and "error" the formatter never returns
    [None].  It returns the two strings, after two readings of the clock,
    exactly when the data holds the keys [method], [url], [status_code]
    and [msg] and the first three are strings, integers or booleans;
    otherwise it raises [KeyError] or [TypeError] after one reading of
    the clock. *)
Theorem X6_formatter_outcome self kind data w :
  kind = "info" ∨ kind = "error" →
  if renderable data then
    ∃ c f, __schame_msg__ repr_of self kind data w =
             (Ok (Some (c, f)), set_ticks (S (S (ticks w))) w)
  else
    ∃ e, (e = KeyError ∨ e = TypeError) ∧
         __schame_msg__ repr_of self kind data w =
           (Raise e, set_ticks (S (ticks w)) w).
Proof.
  intros Hkind. unfold renderable.
  destruct (dict_get "method" data) as [vm|] eqn:Em.
  2:{ exists KeyError. split; [auto|].
      destruct Hkind as [-> | ->]; unfold __schame_msg__; simpl negb; cbv iota;
        cbv beta iota zeta delta [bind now centered plain lift obind ret getitem];
        rewrite Em; reflexivity. }
  destruct (formattable vm) eqn:Fm.
  2:{ assert (∃ e, (e = KeyError ∨ e = TypeError) ∧
                __schame_msg__ repr_of self kind data w =
                  (Raise e, set_ticks (S (ticks w)) w)) as Hfail.
      { exists TypeError. split; [auto|].
        destruct Hkind as [-> | ->]; unfold __schame_msg__; simpl negb; cbv iota;
          cbv beta iota zeta delta [bind now centered plain lift obind ret getitem];
          rewrite Em, (unformattable_center 8 vm Fm); reflexivity. }
      destruct (dict_get "url" data), (dict_get "status_code" data),
        (dict_get "msg" data); exact Hfail. }
  destruct (formattable_center 8 vm Fm) as [m Hm].
  destruct (dict_get "url" data) as [vu|] eqn:Eu.
  2:{ exists KeyError. split; [auto|].
      destruct Hkind as [-> | ->]; unfold __schame_msg__; simpl negb; cbv iota;
        cbv beta iota zeta delta [bind now centered plain lift obind ret getitem];
        rewrite Em, Hm, Eu; reflexivity. }
  destruct (formattable vu) eqn:Fu.
  2:{ assert (∃ e, (e = KeyError ∨ e = TypeError) ∧
                __schame_msg__ repr_of self kind data w =
                  (Raise e, set_ticks (S (ticks w)) w)) as Hfail.
      { exists TypeError. split; [auto|].
        destruct Hkind as [-> | ->]; unfold __schame_msg__; simpl negb; cbv iota;
          cbv beta iota zeta delta [bind now centered plain lift obind ret getitem];
          rewrite Em, Hm, Eu, (unformattable_center 25 vu Fu); reflexivity. }
      destruct (dict_get "status_code" data), (dict_get "msg" data);
        exact Hfail. }
  destruct (formattable_center 25 vu Fu) as [u Hu].
  destruct (dict_get "status_code" data) as [vs|] eqn:Es.
  2:{ exists KeyError. split; [auto|].
      destruct Hkind as [-> | ->]; unfold __schame_msg__; simpl negb; cbv iota;
        cbv beta iota zeta delta [bind now centered plain lift obind ret getitem];
        rewrite Em, Hm, Eu, Hu, Es; reflexivity. }
  destruct (formattable vs) eqn:Fs.
  2:{ assert (∃ e, (e = KeyError ∨ e = TypeError) ∧
                __schame_msg__ repr_of self kind data w =
                  (Raise e, set_ticks (S (ticks w)) w)) as Hfail.
      { exists TypeError. split; [auto|].
        destruct Hkind as [-> | ->]; unfold __schame_msg__; simpl negb; cbv iota;
          cbv beta iota zeta delta [bind now centered plain lift obind ret getitem];
          rewrite Em, Hm, Eu, Hu, Es, (unformattable_center 5 vs Fs);
          reflexivity. }
      destruct (dict_get "msg" data); exact Hfail. }
  destruct (formattable_center 5 vs Fs) as [s Hs].
  destruct (dict_get "msg" data) as [vg|] eqn:Eg.
  2:{ exists KeyError. split; [auto|].
      destruct Hkind as [-> | ->]; unfold __schame_msg__; simpl negb; cbv iota;
        cbv beta iota zeta delta [bind now centered plain lift obind ret getitem];
        rewrite Em, Hm, Eu, Hu, Es, Hs, Eg; reflexivity. }
  cbn [andb].
  destruct (schame_msg_run repr_of self data w vm vu vs vg m u s) as [Hi He];
    try assumption;
    try (unfold getitem; rewrite ?Em, ?Eu, ?Es, ?Eg; reflexivity).
  destruct Hkind as [-> | ->]; eauto.
Qed.

(** Plain text goes through [strip_sgr] unchanged, and the escape codes
    of [Logger] are dropped. *)
Lemma strip_sgr_plain a b :
  has_char ESC a = false →
  strip_sgr_go false (a +:+ b) = a +:+ strip_sgr_go false b.
Proof.
  induction a as [|x a IH]; intros Ha; [reflexivity|].
  simpl in Ha. destruct (Ascii.eqb x ESC) eqn:Ex; [discriminate|].
  change (String x a +:+ b) with (String x (a +:+ b)).
  cbn [strip_sgr_go]. rewrite Ex. cbn [andb].
  rewrite (IH Ha). reflexivity.
Qed.

Lemma strip_sgr_codes b :
  strip_sgr_go false (OKGREEN +:+ b) = strip_sgr_go false b ∧
  strip_sgr_go false (FAIL +:+ b) = strip_sgr_go false b ∧
  strip_sgr_go false (WHITE +:+ b) = strip_sgr_go false b ∧
  strip_sgr_go false (BOLD +:+ b) = strip_sgr_go false b ∧
  strip_sgr_go false (ENDC +:+ b) = strip_sgr_go false b.
Proof. repeat split; reflexivity. Qed.

Lemma string_app_empty_r (a : string) : a +:+ EmptyString = a.
Proof.
  induction a as [|x a IH]; [reflexivity|].
  change (String x (a +:+ EmptyString) = String x a). rewrite IH. reflexivity.
Qed.

(** X7.  The console text is the file text in colours: when the texts of
    the four fields hold no ESC character and the two readings of the
    clock fall in the same minute, removing the escape sequences from the
    console text and adding a line feed gives the file text.  (When the
    minute changes between the readings, the two texts carry different
    time stamps.) *)
Theorem X7_console_text_matches_file_text self kind data w c f w' :
  __schame_msg__ repr_of self kind data w = (Ok (Some (c, f)), w') →
  (∀ key v, key ∈ ["method"; "url"; "status_code"; "msg"] →
            getitem data key = Ok v →
            has_char ESC (py_str repr_of v) = false) →
  strftime (clock w (ticks w)) = strftime (clock w (S (ticks w))) →
  strip_sgr c +:+ NL = f.
Proof.
  intros H Hfree Hclock. apply schame_msg_inv in H.
  destruct H as (vm & vu & vs & vg & m & u & s &
                 Hm & Hm' & Hu & Hu' & Hs & Hs' & Hg & _ & H).
  assert (has_char ESC m = false) as Em.
  { eapply py_format_center_no_ESC; [exact Hm'|].
    apply (Hfree "method"); [repeat constructor | exact Hm]. }
  assert (has_char ESC u = false) as Eu.
  { eapply py_format_center_no_ESC; [exact Hu'|].
    apply (Hfree "url"); [repeat constructor | exact Hu]. }
  assert (has_char ESC (" " +:+ s +:+ " ||") = false) as Es.
  { rewrite !has_char_app.
    erewrite (py_format_center_no_ESC repr_of 5 vs s); [reflexivity | exact Hs'|].
    apply (Hfree "status_code"); [repeat constructor | exact Hs]. }
  assert (has_char ESC (" " +:+ py_str repr_of vg) = false) as Eg.
  { rewrite has_char_app.
    rewrite (Hfree "msg" vg); [reflexivity | repeat constructor | exact Hg]. }
  pose proof (strftime_no_ESC (clock w (ticks w))) as Et.
  assert (Hcode := strip_sgr_codes).
  unfold strip_sgr.
  destruct H as [(_ & -> & ->)|(_ & -> & ->)]; rewrite <- Hclock.
  - rewrite (proj1 (Hcode _)).
    rewrite (strip_sgr_plain "INFO") by reflexivity.
    rewrite (proj2 (proj2 (proj2 (proj2 (Hcode _))))).
    rewrite (strip_sgr_plain ":     ") by reflexivity.
    rewrite (strip_sgr_plain (strftime _)) by exact Et.
    rewrite (strip_sgr_plain " ||") by reflexivity.
    rewrite (proj1 (proj2 (proj2 (Hcode _)))).
    rewrite (proj1 (proj2 (proj2 (proj2 (Hcode _))))).
    rewrite (strip_sgr_plain m) by exact Em.
    rewrite (proj2 (proj2 (proj2 (proj2 (Hcode _))))).
    rewrite (strip_sgr_plain "||") by reflexivity.
    rewrite (proj1 (proj2 (proj2 (Hcode _)))).
    rewrite (proj1 (proj2 (proj2 (proj2 (Hcode _))))).
    rewrite (strip_sgr_plain u) by exact Eu.
    rewrite (proj2 (proj2 (proj2 (proj2 (Hcode _))))).
    rewrite (strip_sgr_plain "||") by reflexivity.
    rewrite (proj1 (Hcode _)).
    rewrite (strip_sgr_plain _ _ Es).
    rewrite (strip_sgr_plain _ _ Eg).
    change (strip_sgr_go false ENDC) with EmptyString.
    rewrite string_app_empty_r, !string_app_assoc. reflexivity.
  - rewrite (proj1 (proj2 (Hcode _))).
    rewrite (strip_sgr_plain "ERROR") by reflexivity.
    rewrite (proj2 (proj2 (proj2 (proj2 (Hcode _))))).
    rewrite (strip_sgr_plain ":    ") by reflexivity.
    rewrite (strip_sgr_plain (strftime _)) by exact Et.
    rewrite (strip_sgr_plain " ||") by reflexivity.
    rewrite (proj1 (proj2 (proj2 (Hcode _)))).
    rewrite (proj1 (proj2 (proj2 (proj2 (Hcode _))))).
    rewrite (strip_sgr_plain m) by exact Em.
    rewrite (proj2 (proj2 (proj2 (proj2 (Hcode _))))).
    rewrite (strip_sgr_plain "||") by reflexivity.
    rewrite (proj1 (proj2 (proj2 (Hcode _)))).
    rewrite (proj1 (proj2 (proj2 (proj2 (Hcode _))))).
    rewrite (strip_sgr_plain u) by exact Eu.
    rewrite (proj2 (proj2 (proj2 (proj2 (Hcode _))))).
    rewrite (strip_sgr_plain "||") by reflexivity.
    rewrite (proj1 (proj2 (Hcode _))).
    rewrite (strip_sgr_plain _ _ Es).
    rewrite (strip_sgr_plain _ _ Eg).
    change (strip_sgr_go false ENDC) with EmptyString.
    rewrite string_app_empty_r, !string_app_assoc. reflexivity.
Qed.

End FormatterMore.

(* ===================================================================== *)
(** * Further properties of the wrapper *)
(* ===================================================================== *)

Section NormalizeFacts.

Lemma dict_get_set_other {A} (k k' : string) (v : A) d :
  k ≠ k' → dict_get k' (dict_set k v d) = dict_get k' d.
Proof.
  intros Hne. induction d as [|[k0 v0] d IH]; simpl.
  - destruct (decide (k = k')); [contradiction | reflexivity].
  - destruct (decide (k0 = k)) as [->|Hk]; simpl.
    + destruct (decide (k = k')); [contradiction | reflexivity].
    + destruct (decide (k0 = k')); [reflexivity | exact IH].
Qed.

Lemma dict_set_set {A} (k : string) (v v' : A) d :
  dict_set k v (dict_set k v' d) = dict_set k v d.
Proof.
  induction d as [|[k0 v0] d IH]; simpl.
  - destruct (decide (k = k)); [reflexivity | contradiction].
  - destruct (decide (k0 = k)) as [->|Hk]; simpl.
    + destruct (decide (k = k)); [reflexivity | contradiction].
    + destruct (decide (k0 = k)); [contradiction|]. rewrite IH. reflexivity.
Qed.

Lemma map_dict_set {A B} (g : A → B) (k : string) (v : A) d :
  map (λ kv, match kv with (k0, x) => (k0, g x) end) (dict_set k v d) =
  dict_set k (g v) (map (λ kv, match kv with (k0, x) => (k0, g x) end) d).
Proof.
  induction d as [|[k0 v0] d IH]; simpl; [reflexivity|].
  destruct (decide (k0 = k)); simpl; [reflexivity|].
  rewrite IH. reflexivity.
Qed.

(** Wrapping in [DotMap]s a value that is wrapped already changes
    nothing. *)
Lemma to_dotmap_idem : ∀ v, to_dotmap (to_dotmap v) = to_dotmap v.
Proof.
  fix IH 1. intros v.
  destruct v as [|b|z|s|items|items|attrs]; try reflexivity.
  - simpl. f_equal.
    induction items as [|[k x] items IHl]; simpl; [reflexivity|].
    rewrite (IH x), IHl. reflexivity.
  - simpl. f_equal.
    induction items as [|[k x] items IHl]; simpl; [reflexivity|].
    rewrite (IH x), IHl. reflexivity.
Qed.

Lemma DotMap_idem r :
  isinstance_dict r = true →
  map (λ kv, match kv with (k, x) => (k, to_dotmap x) end) (DotMap r) = DotMap r.
Proof.
  intros Hr. pose proof (to_dotmap_idem r) as H.
  unfold DotMap. destruct r; try discriminate; simpl in *;
    injection H as H; exact H.
Qed.

(** Lines 176-181 leave their own results alone. *)
Lemma normalize_idem r : normalize (normalize r) = normalize r.
Proof.
  destruct (isinstance_dict r || is_None r) eqn:Hr.
  2:{ rewrite !(normalize_other r Hr). reflexivity. }
  destruct (is_None r) eqn:Hn.
  { destruct r; try discriminate. reflexivity. }
  rewrite orb_false_r in Hr.
  rewrite (normalize_mapping r) by (rewrite Hr; reflexivity).
  rewrite Hn.
  set (sc := mapping_get r "status_code" (VStr "-")).
  rewrite normalize_mapping by reflexivity.
  cbn [is_None mapping_get]. rewrite dict_get_set_eq.
  f_equal. unfold DotMap at 1. cbn [to_dotmap].
  rewrite map_dict_set, (DotMap_idem r Hr). apply dict_set_set.
Qed.

End NormalizeFacts.

Section WrapperMore.

Variable repr_of : value → string.

Local Abbreviation console_line color label colon t m u s g :=
  (color +:+ label +:+ ENDC +:+ colon +:+ strftime t +:+ " ||" +:+
   WHITE +:+ BOLD +:+ m +:+ ENDC +:+ "||" +:+
   WHITE +:+ BOLD +:+ u +:+ ENDC +:+ "||" +:+
   color +:+ (" " +:+ s +:+ " ||") +:+ (" " +:+ g) +:+ ENDC) (only parsing).

Local Abbreviation file_line label t m u s g :=
  (label +:+ strftime t +:+ " ||" +:+ m +:+ "||" +:+
   u +:+ ("|| " +:+ s +:+ " ||") +:+ (" " +:+ g +:+ NL)) (only parsing).

(** The world after the formatter ran and the console line, if any, was
    printed. *)
Local Abbreviation after_print wc line w :=
  {| console := if wc then console w ++ [line] else console w;
     fs := fs w;
     cwd := cwd w;
     clock := clock w;
     ticks := S (S (ticks w)) |} (only parsing).

(** X8.  Normalizing is idempotent: a result that went through lines
    176-181 once comes out of them unchanged a second time.  Hence, with
    logging disabled, a function decorated twice behaves as the function
    decorated once. *)
Theorem X8_normalize_idempotent r :
  normalize (normalize r) = normalize r
  ∧
  ∀ self1 self2 wc1 wf1 wc2 wf2 func args kwargs w,
    write_all self1 = false → write_all self2 = false →
    call (write repr_of self1 wc1 wf1 (write repr_of self2 wc2 wf2 func))
      args kwargs w =
    call (write repr_of self2 wc2 wf2 func) args kwargs w.
Proof.
  split; [apply normalize_idem|].
  intros self1 self2 wc1 wf1 wc2 wf2 func args kwargs w Hoff1 Hoff2.
  cbn [call write].
  rewrite (wrapper_disabled repr_of self1 wc1 wf1 _ args kwargs w Hoff1).
  cbn [call write].
  rewrite (wrapper_disabled repr_of self2 wc2 wf2 func args kwargs w Hoff2).
  destruct (call func args kwargs w) as [[r0|e] w1]; [|reflexivity].
  rewrite normalize_idem. reflexivity.
Qed.

(** What [emit] does once the fields can be rendered: the clock is read
    twice, the console line is printed if asked for, and the file line
    goes to [write_file] if asked for. *)
Lemma emit_formatted self wc wf method url msg result w vs m u s :
  getattr result "status_code" = Ok vs →
  py_format_center 8 method = Ok m →
  py_format_center 25 url = Ok u →
  py_format_center 5 vs = Ok s →
  emit repr_of self wc wf "info" method url msg result w =
    bind (if wf then
            write_file self
              (file_line "INFO:     " (clock w (S (ticks w)))
                 m u s (py_str repr_of msg))
          else ret tt)
         (λ _, ret result)
         (after_print wc
            (console_line OKGREEN "INFO" ":     " (clock w (ticks w))
               m u s (py_str repr_of msg)) w)
  ∧
  emit repr_of self wc wf "error" method url msg result w =
    bind (if wf then
            write_file self
              (file_line "ERROR:    " (clock w (S (ticks w)))
                 m u s (py_str repr_of msg))
          else ret tt)
         (λ _, ret result)
         (after_print wc
            (console_line FAIL "ERROR" ":    " (clock w (ticks w))
               m u s (py_str repr_of msg)) w).
Proof.
  intros Hst Hm Hu Hs.
  destruct (schame_msg_run repr_of self
              [("method", method); ("url", url); ("msg", msg);
               ("status_code", vs)] w method url vs msg m u s
              eq_refl Hm eq_refl Hu eq_refl Hs eq_refl) as [Hi He].
  split; unfold emit, bind at 1, lift; rewrite Hst; cbv beta iota;
    unfold bind at 1; [rewrite Hi | rewrite He];
    unfold bind, subscript, print, ret, lift;
    destruct wc, wf; reflexivity.
Qed.

Lemma bind_Ok_inv {A B} (m : M A) (k : A → M B) w v w' :
  bind m k w = (Ok v, w') → ∃ a w0, m w = (Ok a, w0) ∧ k a w0 = (Ok v, w').
Proof.
  unfold bind. destruct (m w) as [[a|e] w0]; [eauto | discriminate].
Qed.

(** What [emit] returns, when it returns, is the result it was given. *)
Lemma emit_returns self wc wf kind method url msg result w v w' :
  emit repr_of self wc wf kind method url msg result w = (Ok v, w') →
  v = result.
Proof.
  unfold emit. intros H.
  apply bind_Ok_inv in H as (? & ? & _ & H).
  apply bind_Ok_inv in H as (? & ? & _ & H).
  apply bind_Ok_inv in H as (? & ? & _ & H).
  apply bind_Ok_inv in H as (? & ? & _ & H).
  unfold ret in H. congruence.
Qed.

(** X9.  A call with a [request] keyword whose result is a mapping (or
    [None]) without a [body] entry does not return the normalized result
    as it is: reading [result.body] stores an empty [DotMap] under
    [body], that empty map is the logged message, and the value returned
    carries the extra entry. *)
Theorem X9_request_adds_body
    self wc wf func args kwargs request m ru p w r w1 v w' :
  write_all self = true →
  dict_get "request" kwargs = Some request →
  getattr request "method" = Ok m →
  getattr request "url" = Ok ru →
  getattr ru "path" = Ok p →
  call func args kwargs w = (Ok r, w1) →
  isinstance_dict r || is_None r = true →
  dict_get "body" (DotMap r) = None →
  wrapper repr_of self wc wf func args kwargs w = (Ok v, w') →
  log_context func kwargs (normalize r) = Ok (m, p, VDotMap [], v) ∧
  v = VDotMap
        (dict_set "status_code"
           (if is_None r then VInt 200
            else mapping_get r "status_code" (VStr "-"))
           (DotMap r) ++ [("body", VDotMap [])]) ∧
  v ≠ normalize r.
Proof.
  intros Hon Hreq Hm Hu Hp Hcall Hr Hbody Hret.
  rewrite (wrapper_enabled repr_of self wc wf func args kwargs w r w1 Hon Hcall)
    in Hret.
  pose proof (normalize_mapping r Hr) as Hn.
  set (sc := if is_None r then VInt 200
             else mapping_get r "status_code" (VStr "-")) in *.
  assert (Hb : dict_get "body" (dict_set "status_code" sc (DotMap r)) = None).
  { rewrite dict_get_set_other by discriminate. exact Hbody. }
  assert (Hctx : log_context func kwargs (normalize r) =
                 Ok (m, p, VDotMap [],
                     VDotMap (dict_set "status_code" sc (DotMap r) ++
                              [("body", VDotMap [])]))).
  { rewrite (log_context_request func kwargs (normalize r) request m ru p
               (VDotMap []) Hreq Hm Hu Hp).
    - rewrite Hn. cbn [getattr_store]. rewrite Hb. reflexivity.
    - rewrite Hn. cbn [getattr]. rewrite Hb. reflexivity. }
  rewrite Hctx in Hret.
  destruct (log_kind _) as [kind|e]; [|discriminate].
  apply emit_returns in Hret. subst v.
  split; [exact Hctx|]. split; [reflexivity|].
  rewrite Hn. intros H. injection H as H.
  apply (f_equal length) in H. rewrite length_app in H. simpl in H. lia.
Qed.

(** X10.  With logging enabled, a status code that does not accept the
    format [^5] ([None], a mapping, an object) makes the wrapper raise
    [TypeError] instead of returning the result: nothing is printed or
    appended, and the clock has been read once. *)
Theorem X10_unformattable_status_raises
    self wc wf func args kwargs w r w1 status :
  write_all self = true →
  dict_get "request" kwargs = None →
  call func args kwargs w = (Ok r, w1) →
  getattr (normalize r) "status_code" = Ok status →
  formattable status = false →
  wrapper repr_of self wc wf func args kwargs w =
    (Raise TypeError, set_ticks (S (ticks w1)) w1).
Proof.
  intros Hon Hreq Hcall Hst Hfmt.
  rewrite (wrapper_enabled repr_of self wc wf func args kwargs w r w1 Hon Hcall).
  rewrite (log_context_default func kwargs _ Hreq).
  unfold log_kind. rewrite Hst. cbn [obind].
  assert (py_ne_int status 200 = true) as ->
    by (destruct status; try discriminate; reflexivity).
  unfold emit, bind at 1, lift. rewrite Hst. cbv beta iota.
  unfold bind at 1, __schame_msg__. simpl negb. cbv iota.
  cbv beta iota zeta delta [bind now centered plain lift obind ret getitem].
  cbn [dict_get decide]. simpl.
  rewrite (unformattable_center 5 status Hfmt). reflexivity.
Qed.

(** X11.  A mapping without a [status_code] key is logged as an error:
    its status is the string "-", which is not 200, so the line carries
    the label ERROR and the status field "  -  ". *)
Theorem X11_mapping_without_status_is_error
    self wc wf func args kwargs w r items w1 :
  write_all self = true →
  dict_get "request" kwargs = None →
  call func args kwargs w = (Ok r, w1) →
  r = VDict items ∨ r = VDotMap items →
  dict_get "status_code" items = None →
  getattr (normalize r) "status_code" = Ok (VStr "-") ∧
  wrapper repr_of self wc wf func args kwargs w =
    bind (if wf then
            write_file self
              (file_line "ERROR:    " (clock w1 (S (ticks w1)))
                 "   -    " (py_center 25 (__name__ func)) "  -  " "OK")
          else ret tt)
         (λ _, ret (normalize r))
         (after_print wc
            (console_line FAIL "ERROR" ":    " (clock w1 (ticks w1))
               "   -    " (py_center 25 (__name__ func)) "  -  " "OK") w1).
Proof.
  intros Hon Hreq Hcall Hr Hmiss.
  assert (Hst : getattr (normalize r) "status_code" = Ok (VStr "-")).
  { rewrite normalize_mapping by (destruct Hr as [-> | ->]; reflexivity).
    cbn [getattr]. rewrite dict_get_set_eq.
    destruct Hr as [-> | ->]; cbn [is_None mapping_get]; rewrite Hmiss;
      reflexivity. }
  split; [exact Hst|].
  rewrite (wrapper_enabled repr_of self wc wf func args kwargs w r w1 Hon Hcall).
  rewrite (log_context_default func kwargs _ Hreq).
  unfold log_kind. rewrite Hst. cbn [obind py_ne_int].
  apply (emit_formatted self wc wf (VStr "-") (VStr (__name__ func)) (VStr "OK")
           (normalize r) w1 (VStr "-") _ _ _ Hst eq_refl eq_refl eq_refl).
Qed.

(** X12.  A missing log directory does not make the wrapper fail.  The
    log file has a plain path, a directory on the way to it is missing
    and the directories above that one are there.  With [write_file] set
    and a status code that can be rendered, the wrapper prints the line if
    [write_console] is set, then the notice "File Not Found", leaves the
    file system as the wrapped call left it, and returns the normalized
    result. *)
Theorem X12_missing_directory_does_not_fail
    self wc func args kwargs w r w1 status pre d rest :
  write_all self = true →
  dict_get "request" kwargs = None →
  call func args kwargs w = (Ok r, w1) →
  getattr (normalize r) "status_code" = Ok status →
  formattable status = true →
  plain_path (exit_path self) = true →
  node_at (fs w1) (components (exit_path self)) = None →
  components (exit_path self) = pre ++ d :: rest →
  rest ≠ [] →
  (∀ j, j ≤ length pre → is_dir (fs w1) (take j pre) = true) →
  node_at (fs w1) (pre ++ [d]) = None →
  ∃ line w',
    wrapper repr_of self wc true func args kwargs w = (Ok (normalize r), w') ∧
    console w' =
      (if wc then console w1 ++ [line] else console w1) ++ ["File Not Found"] ∧
    fs w' = fs w1.
Proof.
  intros Hon Hreq Hcall Hst Hfmt _ Hfile Hshape Hrest Hdirs Hdir.
  destruct (formattable_center 5 status Hfmt) as [s Hs].
  destruct (emit_formatted self wc true (VStr "-") (VStr (__name__ func))
              (VStr "OK") (normalize r) w1 status _ _ s Hst eq_refl eq_refl Hs)
    as [Hi He].
  rewrite (wrapper_enabled repr_of self wc true func args kwargs w r w1 Hon Hcall).
  rewrite (log_context_default func kwargs _ Hreq).
  unfold log_kind. rewrite Hst. cbn [obind].
  destruct (py_ne_int status 200); [rewrite He | rewrite Hi];
    unfold bind;
    rewrite (write_file_no_directory self _ _ pre d rest) by assumption;
    eexists _, _; (split; [reflexivity|]); split; destruct wc; reflexivity.
Qed.

(** X14.  The endpoint case of the docstring.  When the wrapped call
    returns an object with an integer [status_code] and a [body] and the
    call carries a [request] keyword, the line shows the request's method
    and path, the object's status code and its body, as an info line for
    the status 200 and as an error line otherwise, and the object itself
    is what the wrapper returns. *)
Theorem X14_response_object_logged
    self wc wf func args kwargs request rm ru rp w attrs z body w1 m u :
  write_all self = true →
  dict_get "request" kwargs = Some request →
  getattr request "method" = Ok rm →
  getattr request "url" = Ok ru →
  getattr ru "path" = Ok rp →
  call func args kwargs w = (Ok (VObj attrs), w1) →
  dict_get "status_code" attrs = Some (VInt z) →
  dict_get "body" attrs = Some body →
  py_format_center 8 rm = Ok m →
  py_format_center 25 rp = Ok u →
  wrapper repr_of self wc wf func args kwargs w =
    if decide (z = 200%Z) then
      bind (if wf then
              write_file self
                (file_line "INFO:     " (clock w1 (S (ticks w1)))
                   m u " 200 " (py_str repr_of body))
            else ret tt)
           (λ _, ret (VObj attrs))
           (after_print wc
              (console_line OKGREEN "INFO" ":     " (clock w1 (ticks w1))
                 m u " 200 " (py_str repr_of body)) w1)
    else
      bind (if wf then
              write_file self
                (file_line "ERROR:    " (clock w1 (S (ticks w1)))
                   m u (py_center 5 (str_int z)) (py_str repr_of body))
            else ret tt)
           (λ _, ret (VObj attrs))
           (after_print wc
              (console_line FAIL "ERROR" ":    " (clock w1 (ticks w1))
                 m u (py_center 5 (str_int z)) (py_str repr_of body)) w1).
Proof.
  intros Hon Hreq Hm Hu Hp Hcall Hst Hbody Hfm Hfu.
  assert (Hgs : getattr (VObj attrs) "status_code" = Ok (VInt z))
    by (cbn [getattr]; rewrite Hst; reflexivity).
  assert (Hgb : getattr (VObj attrs) "body" = Ok body)
    by (cbn [getattr]; rewrite Hbody; reflexivity).
  rewrite (wrapper_enabled repr_of self wc wf func args kwargs w _ w1 Hon Hcall).
  change (normalize (VObj attrs)) with (VObj attrs).
  rewrite (log_context_request func kwargs (VObj attrs) request rm ru rp body
             Hreq Hm Hu Hp Hgb).
  cbn [getattr_store]. unfold log_kind. rewrite Hgs. cbn [obind py_ne_int].
  destruct (emit_formatted self wc wf rm rp body (VObj attrs) w1 (VInt z)
              m u _ Hgs Hfm Hfu eq_refl) as [Hi He].
  destruct (decide (z = 200%Z)) as [->|Hz].
  - exact Hi.
  - assert ((z =? 200)%Z = false) as -> by (apply Z.eqb_neq; exact Hz).
    exact He.
Qed.

(** X13.  The constructor fails at line 37 only, before anything is
    done: with [FileNotFoundError] when the working directory is gone,
    with [TypeError] when [exit_path] is [None].  Otherwise it prints
    nothing and returns the logger with the given settings and the path
    [os.getcwd() + exit_path], whether or not the log file can be created.
    When [exit_path] starts with a separator, that path leads below the
    working directory: its components are those of the working directory
    followed by those of [exit_path]. *)
Theorem X13_init_fails_at_the_path_only lvl path col wa w :
  (cwd w = EmptyString →
   __init__ lvl path col wa w = (Raise FileNotFoundError, w))
  ∧
  (cwd w ≠ EmptyString → path = None →
   __init__ lvl path col wa w = (Raise TypeError, w))
  ∧
  (cwd w ≠ EmptyString →
   ∀ p, path = Some p →
   ∃ w',
     __init__ lvl path col wa w =
       (Ok {| lvl_logging := lvl;
              exit_path := cwd w +:+ p;
              color_lvl := col;
              write_all := wa |}, w') ∧
     console w' = console w ∧
     (∀ rest, p = String "/" rest →
              components (cwd w +:+ p) = components (cwd w) ++ components p)).
Proof.
  split; [|split].
  - intros Hgone. unfold __init__, bind at 1, getcwd. rewrite Hgone.
    reflexivity.
  - intros Hcwd ->.
    assert (Hget : getcwd w = (Ok (cwd w), w))
      by (unfold getcwd; destruct (cwd w); [contradiction | reflexivity]).
    unfold __init__, bind at 1. rewrite Hget. reflexivity.
  - intros Hcwd p ->.
    assert (Hget : getcwd w = (Ok (cwd w), w))
      by (unfold getcwd; destruct (cwd w); [contradiction | reflexivity]).
    set (self := {| lvl_logging := lvl; exit_path := cwd w +:+ p;
                    color_lvl := col; write_all := wa |}).
    destruct (get_path_total self w) as [w' Hpath].
    exists w'. unfold __init__, bind at 1. rewrite Hget.
    unfold bind at 1, lift, str_add. cbv beta iota. fold self.
    unfold bind. rewrite Hpath.
    split; [reflexivity|].
    split; [apply (get_path_console self w _ w' Hpath)|].
    intros rest ->. apply components_app_sep.
Qed.

(** The formatter acts on the clock only. *)
Lemma schame_msg_world self kind data w r w' :
  __schame_msg__ repr_of self kind data w = (r, w') →
  ∃ n, w' = set_ticks n w ∧ ticks w ≤ n ≤ S (S (ticks w)).
Proof.
  unfold __schame_msg__, bind, now, centered, plain, lift, ret.
  intros H. repeat case_match; simplify_eq;
    first
      [ eexists; split; [reflexivity | cbn; lia]
      | match goal with
        | |- ∃ n, ?x = set_ticks n ?x ∧ _ =>
            exists (ticks x); split; [destruct x; reflexivity | lia]
        end ].
Qed.

(** [emit] touches the console, the log file and the clock only. *)
Lemma emit_frame self wc wf kind method url msg result w r w' :
  emit repr_of self wc wf kind method url msg result w = (r, w') →
  (∀ q, q ≠ components (exit_path self) → fs w' !! q = fs w !! q) ∧
  cwd w' = cwd w ∧ clock w' = clock w ∧
  ticks w ≤ ticks w' ≤ S (S (ticks w)) ∧
  (∃ lines, console w' = console w ++ lines ∧ length lines ≤ 2).
Proof.
  unfold emit. intros H.
  unfold bind at 1, lift in H.
  destruct (getattr result "status_code") as [vs|e].
  2:{ injection H as _ <-. repeat split; auto; try lia.
      exists []. rewrite app_nil_r. split; [reflexivity | simpl; lia]. }
  unfold bind at 1 in H.
  destruct (__schame_msg__ _ _ _ _ _) as [rs w2] eqn:Es.
  apply schame_msg_world in Es as (n & -> & Hn).
  destruct rs as [message|e].
  2:{ injection H as _ <-. cbn. repeat split; auto; try lia.
      exists []. rewrite app_nil_r. split; [reflexivity | simpl; lia]. }
  unfold bind at 1 in H.
  assert (Hprint : ∃ rp lines,
    (if wc then bind (lift (subscript message 0)) (λ line, print line)
     else ret tt) (set_ticks n w) =
      (rp, set_console (console w ++ lines) (set_ticks n w)) ∧
    length lines ≤ 1).
  { destruct wc.
    - unfold bind, lift, print.
      destruct (subscript message 0) as [line|e].
      + exists (Ok tt), [line]. split; [reflexivity | simpl; lia].
      + exists (Raise e), []. rewrite app_nil_r. split; [|simpl; lia].
        destruct w; reflexivity.
    - exists (Ok tt), []. rewrite app_nil_r. split; [|simpl; lia].
      destruct w; reflexivity. }
  destruct Hprint as (rp & lines & Ep & Hlen).
  match type of H with context [match ?t with _ => _ end] =>
    replace t with (rp, set_console (console w ++ lines) (set_ticks n w)) in H
  end.
  destruct rp as [[]|e].
  2:{ injection H as _ <-. cbn. repeat split; auto; try lia.
      exists lines. split; [reflexivity | lia]. }
  unfold bind at 1 in H.
  destruct wf.
  - unfold bind at 1, lift in H.
    destruct (subscript message 1) as [line|e].
    2:{ injection H as _ <-. cbn. repeat split; auto; try lia.
        exists lines. split; [reflexivity | lia]. }
    destruct (write_file self line _) as [rf w4] eqn:Ef.
    apply write_file_cases in Ef.
    assert (w' = w4) as ->
      by (destruct rf as [[]|e]; unfold ret in H; congruence).
    destruct Ef as [[_ ->]|[(bytes & _ & ->)|[_ ->]]]; cbn.
    + repeat split; auto; try lia.
      exists (lines ++ ["File Not Found"]).
      rewrite app_assoc, length_app. split; [reflexivity | simpl; lia].
    + repeat split; auto; try lia.
      * intros q Hq. apply lookup_insert_ne. congruence.
      * exists lines. split; [reflexivity | lia].
    + repeat split; auto; try lia.
      exists lines. split; [reflexivity | lia].
  - unfold ret in H. injection H as _ <-. cbn. repeat split; auto; try lia.
    exists lines. split; [reflexivity | lia].
Qed.

(** X15.  Whatever the flags and the arguments, the wrapper of a logger
    with a plain path acts on the world the wrapped call left through
    the console, the log file and the clock only: every other path of the
    file system keeps its node, the clock is read at most twice and at
    most two lines are printed.  When the wrapped call raises, the wrapper
    raises the same exception in the same world. *)
Theorem X15_wrapper_touches_only_log_file
    self wc wf func args kwargs w res w1 r' w' :
  plain_path (exit_path self) = true →
  call func args kwargs w = (res, w1) →
  wrapper repr_of self wc wf func args kwargs w = (r', w') →
  (∀ q, q ≠ components (exit_path self) → fs w' !! q = fs w1 !! q) ∧
  cwd w' = cwd w1 ∧ clock w' = clock w1 ∧
  ticks w1 ≤ ticks w' ≤ S (S (ticks w1)) ∧
  (∃ lines, console w' = console w1 ++ lines ∧ length lines ≤ 2) ∧
  (∀ e, res = Raise e → r' = Raise e ∧ w' = w1).
Proof.
  intros _ Hcall H.
  assert (Hsame : w' = w1 →
    (∀ q, q ≠ components (exit_path self) → fs w' !! q = fs w1 !! q) ∧
    cwd w' = cwd w1 ∧ clock w' = clock w1 ∧
    ticks w1 ≤ ticks w' ≤ S (S (ticks w1)) ∧
    (∃ lines, console w' = console w1 ++ lines ∧ length lines ≤ 2)).
  { intros ->. repeat split; auto; try lia.
    exists []. rewrite app_nil_r. split; [reflexivity | simpl; lia]. }
  unfold wrapper, bind at 1 in H. rewrite Hcall in H.
  destruct res as [r|e0].
  2:{ injection H as <- <-.
      destruct (Hsame eq_refl) as (? & ? & ? & ? & ?).
      repeat split; auto; try lia; congruence. }
  assert (Hframe :
    (∀ q, q ≠ components (exit_path self) → fs w' !! q = fs w1 !! q) ∧
    cwd w' = cwd w1 ∧ clock w' = clock w1 ∧
    ticks w1 ≤ ticks w' ≤ S (S (ticks w1)) ∧
    (∃ lines, console w' = console w1 ++ lines ∧ length lines ≤ 2)).
  { destruct (write_all self); cbn [negb] in H.
    2:{ unfold ret in H. injection H as _ <-. apply Hsame. reflexivity. }
    unfold bind at 1, lift in H.
    destruct (log_context func kwargs (normalize r)) as [[[[m u] g] res']|e].
    2:{ injection H as _ <-. apply Hsame. reflexivity. }
    unfold bind at 1, lift in H.
    destruct (log_kind res') as [kind|e].
    2:{ injection H as _ <-. apply Hsame. reflexivity. }
    apply (emit_frame _ _ _ _ _ _ _ _ _ _ _ H). }
  destruct Hframe as (? & ? & ? & ? & ?).
  repeat split; auto; try lia; discriminate.
Qed.

(** X16.  Without a [request] keyword, enabling the logging does not
    change what the wrapper returns: whenever it returns, it returns the
    normalized result of the wrapped call, as it does with logging
    disabled. *)
Theorem X16_logging_keeps_result self wc wf func args kwargs w r w1 v w' :
  write_all self = true →
  dict_get "request" kwargs = None →
  call func args kwargs w = (Ok r, w1) →
  wrapper repr_of self wc wf func args kwargs w = (Ok v, w') →
  v = normalize r.
Proof.
  intros Hon Hreq Hcall Hret.
  rewrite (wrapper_enabled repr_of self wc wf func args kwargs w r w1 Hon Hcall)
    in Hret.
  rewrite (log_context_default func kwargs _ Hreq) in Hret.
  destruct (log_kind (normalize r)); [|discriminate].
  apply (emit_returns _ _ _ _ _ _ _ _ _ _ _ Hret).
Qed.

(** X17.  From an empty place to the first line.  When [get_path] has
    just created the log file (as in X1) and a function that returns
    [None] is then called through the wrapper with [write_file] set, the
    log file holds the header line followed by the info line of the
    call. *)
Theorem X17_first_line_follows_header
    self w pre suf name wc func args kwargs :
  plain_path (exit_path self) = true →
  components (exit_path self) = pre ++ suf ++ [name] →
  (∀ j, j ≤ length pre → is_dir (fs w) (take j pre) = true) →
  node_at (fs w) pre = Some (Dir true) →
  (∀ k, 0 < k ≤ length (suf ++ [name]) →
        node_at (fs w) (pre ++ take k (suf ++ [name])) = None) →
  write_all self = true →
  dict_get "request" kwargs = None →
  (∀ w0, call func args kwargs w0 = (Ok VNone, w0)) →
  ∃ w2,
    bind (get_path self)
         (λ _, wrapper repr_of self wc true func args kwargs) w =
      (Ok (VDotMap [("status_code", VInt 200)]), w2) ∧
    fs w2 !! components (exit_path self) =
      Some (File true
              (header_line (clock w (ticks w)) +:+
               file_line "INFO:     " (clock w (S (S (ticks w))))
                 "   -    " (py_center 25 (__name__ func)) " 200 " "OK")).
Proof.
  intros Hplain Hshape Hdirs Hpre Hfree Hon Hreq Hcall.
  destruct (plain_path_shape _ Hplain) as [_ Hend].
  pose proof (get_path_creates self w pre suf name Hend Hshape Hdirs Hpre
                Hfree) as Hget.
  unfold bind at 1. rewrite Hget.
  set (w0 := {| console := console w;
                fs := <[pre ++ suf ++ [name] :=
                          File true (header_line (clock w (ticks w)))]>
                        (with_dirs pre suf (fs w));
                cwd := cwd w; clock := clock w; ticks := S (ticks w) |}).
  rewrite (wrapper_enabled repr_of self wc true func args kwargs w0 VNone w0
             Hon (Hcall w0)).
  rewrite (log_context_default func kwargs _ Hreq).
  change (normalize VNone) with (VDotMap [("status_code", VInt 200)]).
  change (log_kind (VDotMap [("status_code", VInt 200)]))
    with (@Ok string "info").
  cbv beta iota.
  destruct (emit_formatted self wc true (VStr "-") (VStr (__name__ func))
              (VStr "OK") (VDotMap [("status_code", VInt 200)]) w0 (VInt 200)
              _ _ _ eq_refl eq_refl eq_refl eq_refl) as [-> _].
  unfold bind.
  erewrite write_file_existing;
    [|exact Hend | cbn [fs]; rewrite Hshape; apply lookup_insert_eq].
  eexists. split; [reflexivity|].
  cbn [fs set_fs]. rewrite Hshape. rewrite lookup_insert_eq. reflexivity.
Qed.

(** X18.  The line of a call that returned [None], in its place.  With
    logging enabled, no [request] keyword and a writable log file at a
    plain path, the wrapper prints the info line if [write_console] is
    set, appends the file line to the log file if [write_file] is set,
    reads the clock twice, touches nothing else, and returns the [DotMap]
    with the status code 200. *)
Theorem X18_none_call_appends_info_line
    self wc wf func args kwargs w w1 bytes :
  write_all self = true →
  dict_get "request" kwargs = None →
  call func args kwargs w = (Ok VNone, w1) →
  plain_path (exit_path self) = true →
  fs w1 !! components (exit_path self) = Some (File true bytes) →
  wrapper repr_of self wc wf func args kwargs w =
    (Ok (VDotMap [("status_code", VInt 200)]),
     {| console :=
          if wc then
            console w1 ++
            [console_line OKGREEN "INFO" ":     " (clock w1 (ticks w1))
               "   -    " (py_center 25 (__name__ func)) " 200 " "OK"]
          else console w1;
        fs :=
          if wf then
            <[components (exit_path self) :=
                File true
                  (bytes +:+
                   file_line "INFO:     " (clock w1 (S (ticks w1)))
                     "   -    " (py_center 25 (__name__ func)) " 200 " "OK")]>
              (fs w1)
          else fs w1;
        cwd := cwd w1;
        clock := clock w1;
        ticks := S (S (ticks w1)) |}).
Proof.
  intros Hon Hreq Hcall Hplain Hfile.
  destruct (plain_path_shape _ Hplain) as [_ Hend].
  rewrite (wrapper_enabled repr_of self wc wf func args kwargs w VNone w1
             Hon Hcall).
  rewrite (log_context_default func kwargs _ Hreq).
  change (normalize VNone) with (VDotMap [("status_code", VInt 200)]).
  change (log_kind (VDotMap [("status_code", VInt 200)]))
    with (@Ok string "info").
  cbv beta iota.
  destruct (emit_formatted self wc wf (VStr "-") (VStr (__name__ func))
              (VStr "OK") (VDotMap [("status_code", VInt 200)]) w1 (VInt 200)
              _ _ _ eq_refl eq_refl eq_refl eq_refl) as [-> _].
  unfold bind. destruct wf.
  - erewrite write_file_existing; [|exact Hend | exact Hfile].
    reflexivity.
  - reflexivity.
Qed.

End WrapperMore.

(* ===================================================================== *)
(** * The further properties at work on the sample worlds *)
(* ===================================================================== *)

Lemma X1_witness :
  plain_path (exit_path sample_logger) = true ∧
  components (exit_path sample_logger) = ["srv"] ++ ["log"] ++ ["file.log"] ∧
  is_dir (fs fresh_world) [] = true ∧
  node_at (fs fresh_world) ["srv"] = Some (Dir true) ∧
  node_at (fs fresh_world) ["srv"; "log"] = None ∧
  get_path sample_logger fresh_world =
    (Ok true,
     {| console := [];
        fs := <[ ["srv"; "log"; "file.log"] :=
                   File true (header_line (sample_clock 0)) ]>
                (<[ ["srv"; "log"] := Dir true ]> (fs fresh_world));
        cwd := "/srv";
        clock := sample_clock;
        ticks := 1 |}).
Proof.
  split; [vm_compute; reflexivity|]. split; [vm_compute; reflexivity|].
  split; [vm_compute; reflexivity|]. split; [vm_compute; reflexivity|].
  split; [vm_compute; reflexivity|].
  refine (proj1 (X1_get_path_creates_log_file sample_logger fresh_world
                   ["srv"] ["log"] "file.log" _ _ _ _ _)).
  - vm_compute. reflexivity.
  - vm_compute. reflexivity.
  - intros j Hj. simpl in Hj.
    destruct j as [|[|j]]; try lia; vm_compute; reflexivity.
  - vm_compute. reflexivity.
  - intros k [Hlo Hhi]. simpl in Hhi.
    destruct k as [|[|[|k]]]; try lia; vm_compute; reflexivity.
Defined.

Lemma X2_witness :
  plain_path (exit_path sample_logger) = true ∧
  (∀ q n, fs fresh_world !! q = Some n →
          fs (snd (get_path sample_logger fresh_world)) !! q = Some n) ∧
  console (snd (get_path sample_logger fresh_world)) = console fresh_world.
Proof.
  split; [vm_compute; reflexivity|].
  destruct (X2_get_path_keeps_nodes sample_logger fresh_world
              (fst (get_path sample_logger fresh_world))
              (snd (get_path sample_logger fresh_world)))
    as (Hkeep & Hconsole & _).
  - vm_compute. reflexivity.
  - vm_compute. reflexivity.
  - split; [exact Hkeep | exact Hconsole].
Defined.

Lemma X3_witness :
  plain_path (exit_path sample_logger) = true ∧
  fs logged_world !! components (exit_path sample_logger) =
    Some (File true "old line") ∧
  bind (write_file sample_logger "one") (λ _, write_file sample_logger "two")
    logged_world =
    write_file sample_logger "onetwo" logged_world.
Proof.
  split; [vm_compute; reflexivity|]. split; [vm_compute; reflexivity|].
  refine (proj2 (X3_write_file_appends sample_logger logged_world "old line"
                   "one" "two" _ _)); vm_compute; reflexivity.
Defined.

Lemma X4_witness :
  plain_path (exit_path sample_logger) = true ∧
  node_at (fs fresh_world) (components (exit_path sample_logger)) = None ∧
  components (exit_path sample_logger) = ["srv"] ++ "log" :: ["file.log"] ∧
  node_at (fs fresh_world) (["srv"] ++ ["log"]) = None ∧
  write_file sample_logger "line" fresh_world =
    (Ok tt, set_console ["File Not Found"] fresh_world) ∧
  node_at (fs dir_world) (components (exit_path sample_logger)) = None ∧
  node_at (fs dir_world) (removelast (components (exit_path sample_logger))) =
    Some (Dir true) ∧
  write_file sample_logger "line" dir_world =
    (Ok tt,
     set_fs (<[ ["srv"; "log"; "file.log"] := File true "line" ]> (fs dir_world))
       dir_world).
Proof.
  split; [vm_compute; reflexivity|]. split; [vm_compute; reflexivity|].
  split; [vm_compute; reflexivity|]. split; [vm_compute; reflexivity|].
  split.
  - apply (proj1 (X4_write_file_on_missing_file sample_logger "line" fresh_world
                    ltac:(vm_compute; reflexivity)
                    ltac:(vm_compute; reflexivity))
             ["srv"] "log" ["file.log"]).
    + vm_compute. reflexivity.
    + discriminate.
    + intros j Hj. simpl in Hj.
      destruct j as [|[|j]]; try lia; vm_compute; reflexivity.
    + vm_compute. reflexivity.
  - split; [vm_compute; reflexivity|]. split; [vm_compute; reflexivity|].
    apply (proj2 (X4_write_file_on_missing_file sample_logger "line" dir_world
                    ltac:(vm_compute; reflexivity)
                    ltac:(vm_compute; reflexivity))).
    + intros j Hj.
      change (length (components (exit_path sample_logger))) with 3 in Hj.
      destruct j as [|[|[|j]]]; try lia; vm_compute; reflexivity.
    + vm_compute. reflexivity.
Defined.

Lemma X5_witness :
  plain_path (exit_path sample_logger) = true ∧
  write_file sample_logger "line" blocked_world =
    (Raise NotADirectoryError, blocked_world) ∧
  (∀ q, q ≠ components (exit_path sample_logger) →
        fs blocked_world !! q = fs blocked_world !! q) ∧
  Raise NotADirectoryError ≠ (Raise FileNotFoundError : outcome unit).
Proof.
  split; [vm_compute; reflexivity|]. split; [vm_compute; reflexivity|].
  destruct (X5_write_file_frame sample_logger "line" blocked_world
              (Raise NotADirectoryError) blocked_world)
    as (Hframe & Hnot & _).
  - vm_compute. reflexivity.
  - vm_compute. reflexivity.
  - split; [exact Hframe | exact Hnot].
Defined.

Lemma X6_witness :
  ("info" = "info" ∨ "info" = "error") ∧
  (∃ c f, __schame_msg__ repr_opaque sample_logger "info" sample_data fresh_world =
            (Ok (Some (c, f)), set_ticks 2 fresh_world)) ∧
  (∃ e, (e = KeyError ∨ e = TypeError) ∧
        __schame_msg__ repr_opaque sample_logger "info"
          [("method", VStr "-"); ("url", VStr "handler")] fresh_world =
          (Raise e, set_ticks 1 fresh_world)).
Proof.
  split; [left; reflexivity|]. split.
  - exact (X6_formatter_outcome repr_opaque sample_logger "info" sample_data
             fresh_world (or_introl eq_refl)).
  - exact (X6_formatter_outcome repr_opaque sample_logger "info"
             [("method", VStr "-"); ("url", VStr "handler")]
             fresh_world (or_introl eq_refl)).
Defined.

Lemma X7_witness :
  strftime (clock still_world (ticks still_world)) =
    strftime (clock still_world (S (ticks still_world))) ∧
  strip_sgr sample_console_line +:+ NL =
    "INFO:     2024-05-17 09:30 ||   -    ||         handler         ||  200  || OK"
    +:+ NL.
Proof.
  split; [reflexivity|].
  apply (X7_console_text_matches_file_text repr_opaque sample_logger "info"
           sample_data still_world sample_console_line _
           (set_ticks 2 still_world)).
  - vm_compute. reflexivity.
  - intros key v Hin Hget.
    apply list_elem_of_In in Hin. simpl in Hin.
    destruct Hin as [<-|[<-|[<-|[<-|[]]]]];
      vm_compute in Hget; injection Hget as <-; reflexivity.
  - reflexivity.
Defined.

Lemma X8_witness :
  normalize (normalize (VDict [("detail", VDict [("code", VInt 7)])])) =
    normalize (VDict [("detail", VDict [("code", VInt 7)])]) ∧
  call (write repr_opaque silent_logger true true
          (write repr_opaque silent_logger true true
             (returning "handler" VNone))) [] [] logged_world =
    call (write repr_opaque silent_logger true true
            (returning "handler" VNone)) [] [] logged_world.
Proof.
  split.
  - apply (X8_normalize_idempotent repr_opaque).
  - apply (proj2 (X8_normalize_idempotent repr_opaque VNone)); reflexivity.
Defined.

Lemma X9_witness :
  dict_get "body" (DotMap (VDict [("status_code", VInt 404)])) = None ∧
  wrapper repr_opaque sample_logger true false
    (returning "handler" (VDict [("status_code", VInt 404)]))
    [] [("request", sample_request)] logged_world =
    (Ok (VDotMap [("status_code", VInt 404); ("body", VDotMap [])]),
     snd (wrapper repr_opaque sample_logger true false
            (returning "handler" (VDict [("status_code", VInt 404)]))
            [] [("request", sample_request)] logged_world)) ∧
  VDotMap [("status_code", VInt 404); ("body", VDotMap [])] ≠
    normalize (VDict [("status_code", VInt 404)]).
Proof.
  split; [reflexivity|]. split; [vm_compute; reflexivity|].
  refine (proj2 (proj2
    (X9_request_adds_body repr_opaque sample_logger true false
       (returning "handler" (VDict [("status_code", VInt 404)]))
       [] [("request", sample_request)] sample_request
       (VStr "GET") (VObj [("path", VStr "/items")]) (VStr "/items")
       logged_world (VDict [("status_code", VInt 404)]) logged_world
       (VDotMap [("status_code", VInt 404); ("body", VDotMap [])])
       (snd (wrapper repr_opaque sample_logger true false
               (returning "handler" (VDict [("status_code", VInt 404)]))
               [] [("request", sample_request)] logged_world))
       _ _ _ _ _ _ _ _ _)));
    vm_compute; reflexivity.
Defined.

Lemma X10_witness :
  formattable VNone = false ∧
  wrapper repr_opaque sample_logger true true
    (returning "handler" (VDict [("status_code", VNone)])) [] [] logged_world =
    (Raise TypeError, set_ticks 1 logged_world).
Proof.
  split; [reflexivity|].
  apply (X10_unformattable_status_raises repr_opaque sample_logger true true
           (returning "handler" (VDict [("status_code", VNone)])) [] []
           logged_world (VDict [("status_code", VNone)]) logged_world VNone);
    reflexivity.
Defined.

Lemma X11_witness :
  dict_get "status_code" [("detail", VStr "x")] = None ∧
  getattr (normalize (VDict [("detail", VStr "x")])) "status_code" =
    Ok (VStr "-") ∧
  wrapper repr_opaque sample_logger true false
    (returning "handler" (VDict [("detail", VStr "x")])) [] [] logged_world =
    (Ok (VDotMap [("detail", VStr "x"); ("status_code", VStr "-")]),
     {| console :=
          [FAIL +:+ "ERROR" +:+ ENDC +:+ ":    2024-05-17 09:30 ||" +:+
           WHITE +:+ BOLD +:+ "   -    " +:+ ENDC +:+ "||" +:+
           WHITE +:+ BOLD +:+ "         handler         " +:+ ENDC +:+ "||" +:+
           FAIL +:+ "   -   || OK" +:+ ENDC];
        fs := fs logged_world;
        cwd := "/srv";
        clock := sample_clock;
        ticks := 2 |}).
Proof.
  split; [reflexivity|].
  destruct (X11_mapping_without_status_is_error repr_opaque sample_logger
              true false (returning "handler" (VDict [("detail", VStr "x")]))
              [] [] logged_world (VDict [("detail", VStr "x")])
              [("detail", VStr "x")] logged_world
              eq_refl eq_refl eq_refl (or_introl eq_refl) eq_refl)
    as [Hstatus Hrun].
  split; [exact Hstatus|].
  rewrite Hrun. vm_compute. reflexivity.
Defined.

Lemma X12_witness :
  plain_path (exit_path sample_logger) = true ∧
  node_at (fs fresh_world) (components (exit_path sample_logger)) = None ∧
  components (exit_path sample_logger) = ["srv"] ++ "log" :: ["file.log"] ∧
  node_at (fs fresh_world) (["srv"] ++ ["log"]) = None ∧
  ∃ line w',
    wrapper repr_opaque sample_logger true true
      (returning "handler" VNone) [] [] fresh_world =
      (Ok (normalize VNone), w') ∧
    console w' = (console fresh_world ++ [line]) ++ ["File Not Found"] ∧
    fs w' = fs fresh_world.
Proof.
  split; [vm_compute; reflexivity|]. split; [vm_compute; reflexivity|].
  split; [vm_compute; reflexivity|]. split; [vm_compute; reflexivity|].
  apply (X12_missing_directory_does_not_fail repr_opaque sample_logger true
           (returning "handler" VNone) [] [] fresh_world VNone fresh_world
           (VInt 200) ["srv"] "log" ["file.log"]);
    try (vm_compute; reflexivity).
  - discriminate.
  - intros j Hj. simpl in Hj.
    destruct j as [|[|j]]; try lia; vm_compute; reflexivity.
Defined.

Lemma X13_witness :
  (__init__ "info" (Some "/log/file.log") false true
     {| console := []; fs := ∅; cwd := ""; clock := sample_clock; ticks := 0 |} =
     (Raise FileNotFoundError,
      {| console := []; fs := ∅; cwd := ""; clock := sample_clock; ticks := 0 |}))
  ∧
  (cwd fresh_world ≠ EmptyString ∧
   __init__ "info" None false true fresh_world = (Raise TypeError, fresh_world))
  ∧
  ∃ w',
    __init__ "info" (Some "/log/file.log") false true fresh_world =
      (Ok sample_logger, w') ∧
    console w' = [] ∧
    components (cwd fresh_world +:+ "/log/file.log") =
      ["srv"] ++ ["log"; "file.log"].
Proof.
  split; [|split; [split; [discriminate|]|]].
  - apply (proj1 (X13_init_fails_at_the_path_only "info" (Some "/log/file.log")
                    false true _)).
    reflexivity.
  - apply (proj1 (proj2 (X13_init_fails_at_the_path_only "info" None
                           false true fresh_world)));
      [discriminate | reflexivity].
  - destruct (proj2 (proj2 (X13_init_fails_at_the_path_only "info"
                              (Some "/log/file.log") false true fresh_world))
                ltac:(discriminate) "/log/file.log" eq_refl)
      as (w' & Hinit & Hconsole & Hpath).
    exists w'. split; [exact Hinit|]. split; [exact Hconsole|].
    apply (Hpath "log/file.log"). reflexivity.
Defined.

Lemma X14_witness :
  dict_get "status_code"
    [("status_code", VInt 404); ("body", VStr "not found")] = Some (VInt 404) ∧
  wrapper repr_opaque sample_logger false true
    (returning "handler" sample_response)
    [] [("request", sample_request)] logged_world =
    (Ok sample_response,
     {| console := [];
        fs := <[ ["srv"; "log"; "file.log"] :=
                   File true
                     ("old line" +:+
                      "ERROR:    2024-05-17 09:31 ||  GET   ||         /items          ||  404  || not found"
                      +:+ NL) ]> (fs logged_world);
        cwd := "/srv";
        clock := sample_clock;
        ticks := 2 |}).
Proof.
  split; [reflexivity|].
  rewrite (X14_response_object_logged repr_opaque sample_logger false true
             (returning "handler" sample_response)
             [] [("request", sample_request)] sample_request
             (VStr "GET") (VObj [("path", VStr "/items")]) (VStr "/items")
             logged_world
             [("status_code", VInt 404); ("body", VStr "not found")]
             404 (VStr "not found") logged_world
             "  GET   " "         /items          ");
    vm_compute; reflexivity.
Defined.

Lemma X15_witness :
  plain_path (exit_path sample_logger) = true ∧
  call (returning "handler" VNone) [] [] logged_world = (Ok VNone, logged_world) ∧
  (∀ q, q ≠ components (exit_path sample_logger) →
        fs (snd (wrapper repr_opaque sample_logger true true
                   (returning "handler" VNone) [] [] logged_world)) !! q =
        fs logged_world !! q).
Proof.
  split; [vm_compute; reflexivity|]. split; [reflexivity|].
  refine (proj1 (X15_wrapper_touches_only_log_file repr_opaque sample_logger
                   true true (returning "handler" VNone) [] [] logged_world
                   (Ok VNone) logged_world
                   (fst (wrapper repr_opaque sample_logger true true
                           (returning "handler" VNone) [] [] logged_world))
                   (snd (wrapper repr_opaque sample_logger true true
                           (returning "handler" VNone) [] [] logged_world))
                   _ _ _)).
  - vm_compute. reflexivity.
  - reflexivity.
  - vm_compute. reflexivity.
Defined.

Lemma X16_witness :
  dict_get "request" ([] : list (string * value)) = None ∧
  VDotMap [("status_code", VInt 404)] = normalize (VDict [("status_code", VInt 404)]).
Proof.
  split; [reflexivity|].
  apply (X16_logging_keeps_result repr_opaque sample_logger true true
           (returning "handler" (VDict [("status_code", VInt 404)])) [] []
           logged_world (VDict [("status_code", VInt 404)]) logged_world
           (VDotMap [("status_code", VInt 404)])
           (snd (wrapper repr_opaque sample_logger true true
                   (returning "handler" (VDict [("status_code", VInt 404)]))
                   [] [] logged_world)));
    vm_compute; reflexivity.
Defined.

Lemma X17_witness :
  plain_path (exit_path sample_logger) = true ∧
  components (exit_path sample_logger) = ["srv"] ++ ["log"] ++ ["file.log"] ∧
  node_at (fs fresh_world) ["srv"] = Some (Dir true) ∧
  node_at (fs fresh_world) ["srv"; "log"] = None ∧
  ∃ w2,
    bind (get_path sample_logger)
         (λ _, wrapper repr_opaque sample_logger false true
                 (returning "handler" VNone) [] []) fresh_world =
      (Ok (VDotMap [("status_code", VInt 200)]), w2) ∧
    fs w2 !! ["srv"; "log"; "file.log"] =
      Some (File true
              (header_line (sample_clock 0) +:+
               "INFO:     2024-05-17 09:32 ||   -    ||         handler         ||  200  || OK"
               +:+ NL)).
Proof.
  split; [vm_compute; reflexivity|]. split; [vm_compute; reflexivity|].
  split; [vm_compute; reflexivity|]. split; [vm_compute; reflexivity|].
  apply (X17_first_line_follows_header repr_opaque sample_logger fresh_world
           ["srv"] ["log"] "file.log" false (returning "handler" VNone) [] []).
  - vm_compute. reflexivity.
  - vm_compute. reflexivity.
  - intros j Hj. simpl in Hj.
    destruct j as [|[|j]]; try lia; vm_compute; reflexivity.
  - vm_compute. reflexivity.
  - intros k [Hlo Hhi]. simpl in Hhi.
    destruct k as [|[|[|k]]]; try lia; vm_compute; reflexivity.
  - reflexivity.
  - reflexivity.
  - intros w0. reflexivity.
Defined.

Lemma X18_witness :
  write_all sample_logger = true ∧
  plain_path (exit_path sample_logger) = true ∧
  fs logged_world !! components (exit_path sample_logger) =
    Some (File true "old line") ∧
  wrapper repr_opaque sample_logger true true
    (returning "handler" VNone) [] [] logged_world =
    (Ok (VDotMap [("status_code", VInt 200)]),
     {| console := [sample_console_line];
        fs := <[ ["srv"; "log"; "file.log"] :=
                   File true ("old line" +:+ sample_file_line) ]>
                (fs logged_world);
        cwd := "/srv";
        clock := sample_clock;
        ticks := 2 |}).
Proof.
  split; [reflexivity|]. split; [vm_compute; reflexivity|].
  split; [vm_compute; reflexivity|].
  rewrite (X18_none_call_appends_info_line repr_opaque sample_logger true true
             (returning "handler" VNone) [] [] logged_world logged_world
             "old line" eq_refl eq_refl eq_refl);
    vm_compute; reflexivity.
Defined.

(** A log path that ends in a separator is refused by [open]: nothing is
    appended, and the error is not one [write_file] catches. *)
Example write_file_trailing_separator :
  write_file {| lvl_logging := "info"; exit_path := "/srv/log/file.log/";
                color_lvl := false; write_all := true |} "line" logged_world =
    (Raise IsADirectoryError, logged_world).
Proof. vm_compute. reflexivity. Qed.

(** A regular file higher up the path stops the walk with
    [NotADirectoryError], however many directories are missing below
    it. *)
Example write_file_below_a_file :
  write_file {| lvl_logging := "info"; exit_path := "/srv/log/sub/file.log";
                color_lvl := false; write_all := true |} "line" blocked_world =
    (Raise NotADirectoryError, blocked_world).
Proof. vm_compute. reflexivity. Qed.
